(** * Shairport metadata server: the MQTT callback and the /metadata view

    A shallow embedding of [shairport-metadata-server/server.py]:
    the module-level dictionary [metadata], the paho callback [on_message]
    that folds MQTT messages into it, and the Flask view [get_metadata]
    that serialises it.

    Python values are embedded as follows.
    - [str] is a list of code points ([pystr]); [py "..."] is a literal.
    - [bytes] is a list of [byte].
    - a [dict] with string keys is a [gmap string _]; item assignment
      [d[k] = v] is [<[k:=v]> d].
    - exceptions are values of [exn]; a computation that may raise and
      assigns dictionary items lives in the monad [M], which also records
      the item assignments in the order in which they are executed.
    - a [float] is a binary64 datum ([spec_float] of the Standard
      Library); the builtin [float(str)] itself is not part of the
      repository and is a parameter of the development ([builtin_float]). *)

From Stdlib Require Import ZArith NArith List String Ascii Lia SpecFloat.
From Stdlib.Strings Require Import Byte.
From stdpp Require Import base gmap strings list fin_maps.

Local Open Scope N_scope.

(** ** Python strings and bytes *)

Abbreviation pystr := (list N).
Abbreviation bytes := (list byte).
Abbreviation float := spec_float.

(** A literal of the source, as the list of its code points. *)
Definition py (s : string) : pystr :=
  List.map N_of_ascii (list_ascii_of_string s).

(** [a == b] on strings. *)
Fixpoint pyeq (a b : pystr) : bool :=
  match a, b with
  | [], [] => true
  | x :: a', y :: b' => (x =? y) && pyeq a' b'
  | _, _ => false
  end.

(** [s.startswith(p)]. *)
Fixpoint startswith (s p : pystr) {struct p} : bool :=
  match p with
  | [] => true
  | c :: p' =>
      match s with
      | [] => false
      | d :: s' => (d =? c) && startswith s' p'
      end
  end.

(** The slice [s[n:]]. *)
Definition slice_from (n : nat) (s : pystr) : pystr := drop n s.

(** [d.get(k, dflt)]. *)
Definition dict_get {V} (d : gmap string V) (k : string) (dflt : V) : V :=
  default dflt (d !! k).

(** ** Exceptions *)

Inductive exn := UnicodeDecodeError | ValueError.

(** The classes named in the [except] clauses of the source.
    [UnicodeDecodeError] derives from [ValueError], and both derive from
    [Exception]. *)
Inductive exc_class := ClsException | ClsValueError.

Definition isinstance (e : exn) (c : exc_class) : bool :=
  match c, e with
  | ClsException, _ => true
  | ClsValueError, (UnicodeDecodeError | ValueError) => true
  end.

Inductive res (A : Type) :=
  | Ret (a : A)
  | Raise (e : exn).
Arguments Ret {A} a.
Arguments Raise {A} e.

(** ** [bytes.decode("utf-8")]

    The strict decoder: shortest forms only, no surrogates, nothing above
    U+10FFFF. [None] stands for [UnicodeDecodeError]. *)

Definition in_range (lo hi b : N) : bool := (lo <=? b) && (b <=? hi).
Definition is_cont (b : N) : bool := in_range 0x80 0xBF b.
Definition cont_bits (b : N) : N := N.land b 0x3F.

Fixpoint utf8_decode (bs : bytes) : option pystr :=
  match bs with
  | [] => Some []
  | b0 :: r0 =>
      let c0 := Byte.to_N b0 in
      if c0 <? 0x80 then
        match utf8_decode r0 with
        | Some t => Some (c0 :: t)
        | None => None
        end
      else if c0 <? 0xC2 then None
      else if c0 <? 0xE0 then
        match r0 with
        | b1 :: r1 =>
            let c1 := Byte.to_N b1 in
            if is_cont c1 then
              match utf8_decode r1 with
              | Some t =>
                  Some (N.lor (N.shiftl (N.land c0 0x1F) 6) (cont_bits c1) :: t)
              | None => None
              end
            else None
        | _ => None
        end
      else if c0 <? 0xF0 then
        match r0 with
        | b1 :: b2 :: r2 =>
            let c1 := Byte.to_N b1 in
            let c2 := Byte.to_N b2 in
            let lo := if c0 =? 0xE0 then 0xA0 else 0x80 in
            let hi := if c0 =? 0xED then 0x9F else 0xBF in
            if in_range lo hi c1 && is_cont c2 then
              match utf8_decode r2 with
              | Some t =>
                  Some (N.lor (N.shiftl (N.land c0 0x0F) 12)
                          (N.lor (N.shiftl (cont_bits c1) 6) (cont_bits c2)) :: t)
              | None => None
              end
            else None
        | _ => None
        end
      else if c0 <? 0xF5 then
        match r0 with
        | b1 :: b2 :: b3 :: r3 =>
            let c1 := Byte.to_N b1 in
            let c2 := Byte.to_N b2 in
            let c3 := Byte.to_N b3 in
            let lo := if c0 =? 0xF0 then 0x90 else 0x80 in
            let hi := if c0 =? 0xF4 then 0x8F else 0xBF in
            if in_range lo hi c1 && is_cont c2 && is_cont c3 then
              match utf8_decode r3 with
              | Some t =>
                  Some (N.lor (N.shiftl (N.land c0 0x07) 18)
                          (N.lor (N.shiftl (cont_bits c1) 12)
                             (N.lor (N.shiftl (cont_bits c2) 6) (cont_bits c3))) :: t)
              | None => None
              end
            else None
        | _ => None
        end
      else None
  end.

Definition decode_utf8 (b : bytes) : res pystr :=
  match utf8_decode b with
  | Some s => Ret s
  | None => Raise UnicodeDecodeError
  end.

(** ** [base64.b64encode] and its inverse

    The standard alphabet of RFC 4648 with [=] padding, three bytes to four
    characters, written with the shifts and masks of the C implementation
    behind [base64.b64encode]. *)

Definition b64_alphabet : bytes :=
  list_byte_of_string
    "ABCDEFGHIJKLMNOPQRSTUVWXYZabcdefghijklmnopqrstuvwxyz0123456789+/".

Definition b64_pad : byte := "="%byte.

Definition b64_char (i : N) : byte := nth (N.to_nat i) b64_alphabet b64_pad.

Definition sextet0 (x : N) : N := N.shiftr x 2.
Definition sextet1 (x y : N) : N :=
  N.lor (N.shiftl (N.land x 0x03) 4) (N.shiftr y 4).
Definition sextet2 (y z : N) : N :=
  N.lor (N.shiftl (N.land y 0x0F) 2) (N.shiftr z 6).
Definition sextet3 (z : N) : N := N.land z 0x3F.

Fixpoint b64encode (bs : bytes) : bytes :=
  match bs with
  | [] => []
  | [a] =>
      let x := Byte.to_N a in
      [b64_char (sextet0 x); b64_char (sextet1 x 0); b64_pad; b64_pad]
  | [a; b] =>
      let x := Byte.to_N a in
      let y := Byte.to_N b in
      [b64_char (sextet0 x); b64_char (sextet1 x y);
       b64_char (sextet2 y 0); b64_pad]
  | a :: b :: c :: r =>
      let x := Byte.to_N a in
      let y := Byte.to_N b in
      let z := Byte.to_N c in
      b64_char (sextet0 x) :: b64_char (sextet1 x y) ::
      b64_char (sextet2 y z) :: b64_char (sextet3 z) :: b64encode r
  end.

(** Position of a character in the alphabet. *)
Fixpoint index_of (c : N) (tbl : bytes) (i : N) : option N :=
  match tbl with
  | [] => None
  | b :: tbl' => if Byte.to_N b =? c then Some i else index_of c tbl' (i + 1)
  end.

Definition b64_index (c : N) : option N := index_of c b64_alphabet 0.

Definition octet0 (s0 s1 : N) : option byte :=
  Byte.of_N (N.lor (N.shiftl s0 2) (N.shiftr s1 4)).
Definition octet1 (s1 s2 : N) : option byte :=
  Byte.of_N (N.lor (N.shiftl (N.land s1 0x0F) 4) (N.shiftr s2 2)).
Definition octet2 (s2 s3 : N) : option byte :=
  Byte.of_N (N.lor (N.shiftl (N.land s2 0x03) 6) s3).

(** The decoder of RFC 4648 on a [str]: groups of four characters, the
    last one possibly padded. This is what [base64.b64decode] computes on
    the output of [b64encode]. *)
Fixpoint b64decode (s : pystr) : option bytes :=
  match s with
  | [] => Some []
  | c0 :: c1 :: c2 :: c3 :: r =>
      let pad := Byte.to_N b64_pad in
      match r with
      | [] =>
          if (c3 =? pad) && (c2 =? pad) then
            s0 ← b64_index c0; s1 ← b64_index c1;
            o0 ← octet0 s0 s1;
            Some [o0]
          else if c3 =? pad then
            s0 ← b64_index c0; s1 ← b64_index c1; s2 ← b64_index c2;
            o0 ← octet0 s0 s1; o1 ← octet1 s1 s2;
            Some [o0; o1]
          else
            s0 ← b64_index c0; s1 ← b64_index c1;
            s2 ← b64_index c2; s3 ← b64_index c3;
            o0 ← octet0 s0 s1; o1 ← octet1 s1 s2; o2 ← octet2 s2 s3;
            Some [o0; o1; o2]
      | _ :: _ =>
          s0 ← b64_index c0; s1 ← b64_index c1;
          s2 ← b64_index c2; s3 ← b64_index c3;
          o0 ← octet0 s0 s1; o1 ← octet1 s1 s2; o2 ← octet2 s2 s3;
          t ← b64decode r;
          Some (o0 :: o1 :: o2 :: t)
      end
  | _ => None
  end.

(** The numbers below [n], for exhaustive checks on bytes and sextets. *)
Definition N_range (n : nat) : list N := List.map N.of_nat (seq 0 n).

(** ** Values and the dictionary *)

Inductive pyval :=
  | VNone
  | VBool (b : bool)
  | VInt (z : Z)
  | VFloat (f : float)
  | VStr (s : pystr).

(** One item assignment [metadata[k] = v]. *)
Definition setitem_op (d : gmap string pyval) (kv : string * pyval) :
    gmap string pyval :=
  <[kv.1 := kv.2]> d.

(** A run of item assignments, first to last. *)
Definition store_all (ws : list (string * pyval)) (d : gmap string pyval) :
    gmap string pyval :=
  foldl setitem_op d ws.

(** The module-level dictionary as the source initialises it. *)
Definition metadata : gmap string pyval :=
  list_to_map
    [ ("title", VStr (py ""));
      ("artist", VStr (py ""));
      ("album", VStr (py ""));
      ("genre", VStr (py ""));
      ("artwork_base64", VNone);
      ("is_playing", VBool false);
      ("player_state", VStr (py "stopped"));
      ("volume", VInt 0);
      ("client_name", VStr (py "")) ].

(** ** The monad of the callback

    A computation starts from the current dictionary and ends normally or
    with an exception; it returns the dictionary it leaves behind and the
    item assignments it performed, in execution order. *)

Record outcome (A : Type) := Outcome {
  result : res A;
  after : gmap string pyval;
  stores : list (string * pyval)
}.
Arguments Outcome {A} _ _ _.
Arguments result {A} _.
Arguments after {A} _.
Arguments stores {A} _.

Definition M (A : Type) : Type := gmap string pyval -> outcome A.

Definition ret {A} (a : A) : M A := fun d => Outcome (Ret a) d [].

Definition raise {A} (e : exn) : M A := fun d => Outcome (Raise e) d [].

Definition bind {A B} (m : M A) (k : A -> M B) : M B := fun d =>
  let o := m d in
  match result o with
  | Ret a =>
      let o' := k a (after o) in
      Outcome (result o') (after o') (stores o ++ stores o')
  | Raise e => Outcome (Raise e) (after o) (stores o)
  end.

(** A pure step that may raise. *)
Definition lift {A} (r : res A) : M A :=
  match r with
  | Ret a => ret a
  | Raise e => raise e
  end.

(** [metadata[k] = v]. *)
Definition setitem (k : string) (v : pyval) : M unit := fun d =>
  Outcome (Ret tt) (<[k := v]> d) [(k, v)].

(** [try: body / except cls: handler]. *)
Definition try_except {A} (body : M A) (cls : exc_class) (handler : exn -> M A) :
    M A := fun d =>
  let o := body d in
  match result o with
  | Ret _ => o
  | Raise e =>
      if isinstance e cls then
        let o' := handler e (after o) in
        Outcome (result o') (after o') (stores o ++ stores o')
      else o
  end.

Notation "x <- m ;; k" := (bind m (fun x => k))
  (at level 100, m at next level, right associativity).
Notation "m ;;; k" := (bind m (fun _ => k))
  (at level 100, right associativity).

(** ** MQTT messages

    The attributes of a paho [MQTTMessage]; the callback reads [topic] and
    [payload] only. *)
Record MQTTMessage := {
  topic : pystr;
  payload : bytes;
  qos : N;
  retain : bool;
  mid : N;
  dup : bool;
  timestamp : float
}.

(** ** Values written by [jsonify]

    One constructor per kind of value the encoder meets in [metadata].
    A [JFloat] that is not finite is not written as a JSON number, see
    [nonfinite_token]. *)

Inductive json :=
  | JNull
  | JBool (b : bool)
  | JInt (z : Z)
  | JFloat (f : float)
  | JString (s : pystr).

Definition to_json (v : pyval) : json :=
  match v with
  | VNone => JNull
  | VBool b => JBool b
  | VInt z => JInt z
  | VFloat f => JFloat f
  | VStr s => JString s
  end.

(** A Flask response: status code and the members of the object written
    to the body. *)
Definition jsonify (d : gmap string pyval) : nat * gmap string json :=
  (200%nat, to_json <$> d).

(** ** The server *)

(** [topic[len(topic_prefix) + 1:] if topic.startswith(topic_prefix) else topic],
    the value of the local variable [relative_topic] of [on_message]. *)
Definition relative_topic (topic topic_prefix : pystr) : pystr :=
  if startswith topic topic_prefix
  then slice_from (length topic_prefix + 1) topic
  else topic.

(** The view behind [/metadata]. *)
Definition get_metadata (d : gmap string pyval) : nat * gmap string json :=
  jsonify d.

(** *** The action table of the specification

    Relative topic and the fields the specification lists for it, row by
    row (the two spellings of a row are listed separately; the artwork
    field is [artwork_base64] in the dictionary). *)
Definition stop_fields : list string :=
  ["is_playing"; "player_state"; "title"; "artist"; "album"; "artwork_base64"].

Definition action_table : list (string * list string) :=
  [ ("artist", ["artist"]);
    ("title", ["title"]);
    ("album", ["album"]);
    ("genre", ["genre"]);
    ("cover", ["artwork_base64"]);
    ("artwork", ["artwork_base64"]);
    ("play_start", ["is_playing"; "player_state"]);
    ("play_resume", ["is_playing"; "player_state"]);
    ("play_end", stop_fields);
    ("play_flush", stop_fields);
    ("pause", ["is_playing"; "player_state"]);
    ("volume", ["volume"]);
    ("client_name", ["client_name"]);
    ("active_start", []);
    ("active_end", stop_fields) ].

Fixpoint table_lookup (rt : pystr) (tbl : list (string * list string)) :
    option (list string) :=
  match tbl with
  | [] => None
  | (k, fields) :: tbl' =>
      if pyeq rt (py k) then Some fields else table_lookup rt tbl'
  end.

(** The fields addressed by a relative topic; [None] when the topic is
    not in the table. *)
Definition action_fields (rt : pystr) : option (list string) :=
  table_lookup rt action_table.

(** *** The literals of the callback *)

(** The topics the [if]/[elif] chain of [on_message] compares with, in
    source order. *)
Definition known_topics : list string :=
  ["artist"; "title"; "album"; "genre"; "cover"; "artwork"; "play_start";
   "play_resume"; "play_end"; "play_flush"; "pause"; "volume";
   "client_name"; "active_start"; "active_end"].

(** Those whose branch decodes the payload and stores the text under the
    key of the same name. *)
Definition text_topics : list string :=
  ["artist"; "title"; "album"; "genre"; "client_name"].

(** The item assignments of the [play_end]/[play_flush] and [active_end]
    branches, in source order. *)
Definition stop_stores : list (string * pyval) :=
  [ ("is_playing", VBool false);
    ("player_state", VStr (py "stopped"));
    ("title", VStr (py ""));
    ("artist", VStr (py ""));
    ("album", VStr (py ""));
    ("artwork_base64", VNone) ].

(** *** Predicates on the dictionary and on responses *)

(** Playback stopped and the track fields cleared. *)
Definition stopped_and_cleared (d : gmap string pyval) : Prop :=
  d !! "title" = Some (VStr (py "")) /\
  d !! "artist" = Some (VStr (py "")) /\
  d !! "album" = Some (VStr (py "")) /\
  d !! "artwork_base64" = Some VNone /\
  d !! "is_playing" = Some (VBool false) /\
  d !! "player_state" = Some (VStr (py "stopped")).

(** [is_playing == (player_state == "playing")]. *)
Definition playing_flag_consistent (d : gmap string pyval) : Prop :=
  exists b s,
    d !! "is_playing" = Some (VBool b) /\
    d !! "player_state" = Some (VStr s) /\
    (b = true <-> s = py "playing").

(** A state in which playback is stopped while a title is still shown. *)
Definition stale_title (d : gmap string pyval) : Prop :=
  d !! "player_state" = Some (VStr (py "stopped")) /\
  exists t, d !! "title" = Some (VStr t) /\ t <> [].

(** The value [v] has the type the key [k] holds in [metadata]. *)
Definition item_ok (k : string) (v : pyval) : Prop :=
  (In k ["title"; "artist"; "album"; "genre"; "client_name"] /\
     exists s, v = VStr s) \/
  (k = "artwork_base64" /\
     (v = VNone \/
      exists p : bytes, p <> [] /\ v = VStr (List.map Byte.to_N (b64encode p)))) \/
  (k = "is_playing" /\ exists b, v = VBool b) \/
  (k = "player_state" /\
     (v = VStr (py "stopped") \/ v = VStr (py "playing") \/
      v = VStr (py "paused"))) \/
  (k = "volume" /\ (v = VInt 0 \/ exists f, v = VFloat f)).

Definition metadata_keys : gset string :=
  {[ "title"; "artist"; "album"; "genre"; "artwork_base64"; "is_playing";
     "player_state"; "volume"; "client_name" ]}.

(** The keys of the dictionary are the nine of [metadata], each with a
    value of its type. *)
Definition well_typed (d : gmap string pyval) : Prop :=
  dom d = metadata_keys /\
  forall k v, d !! k = Some v -> item_ok k v.


(** What the encoder behind [jsonify] writes for a float that is not
    finite: [allow_nan] is left at its default, so the body carries the
    bare words [NaN], [Infinity] and [-Infinity], which the JSON grammar
    does not have. A finite float is written as a JSON number. *)
Definition nonfinite_token (f : float) : option pystr :=
  match f with
  | S754_nan => Some (py "NaN")
  | S754_infinity false => Some (py "Infinity")
  | S754_infinity true => Some (py "-Infinity")
  | S754_zero _ | S754_finite _ _ _ => None
  end.

(** The text written for [j] is a JSON value. *)
Definition json_value (j : json) : Prop :=
  match j with
  | JFloat f => nonfinite_token f = None
  | JNull | JBool _ | JInt _ | JString _ => True
  end.

(** The body of the response is a JSON object: each member is a JSON
    value. *)
Definition json_body (r : nat * gmap string json) : Prop :=
  forall k j, r.2 !! k = Some j -> json_value j.

(** *** Sample inputs *)

(** A message on [shairport-sync/<name>]. *)
Definition sample_msg (name : string) (body : string) : MQTTMessage :=
  {| topic := py "shairport-sync/" ++ py name;
     payload := list_byte_of_string body;
     qos := 0; retain := false; mid := 0; dup := false;
     timestamp := S754_zero false |}.

(** Title, artist and start of playback: the first end-to-end scenario
    of the specification. *)
Definition song_a_playing : list MQTTMessage :=
  [sample_msg "title" "Song A"; sample_msg "artist" "Band B";
   sample_msg "play_start" ""].

(** A title whose payload is not UTF-8. *)
Definition undecodable_title : MQTTMessage :=
  {| topic := py "shairport-sync/title";
     payload := [xff; xfe];
     qos := 0; retain := false; mid := 0; dup := false;
     timestamp := S754_zero false |}.

(** The same topic and payload delivered again with other attributes. *)
Definition redelivered (m : MQTTMessage) : MQTTMessage :=
  {| topic := m.(topic);
     payload := m.(payload);
     qos := 2; retain := true; mid := m.(mid) + 1; dup := true;
     timestamp := S754_infinity false |}.

(** The configuration in which a [play_end] that follows a title has
    executed its first two item assignments. *)
Definition stopped_before_clearing : gmap string pyval :=
  <["player_state" := VStr (py "stopped")]>
    (<["is_playing" := VBool false]>
       (<["title" := VStr (py "Song A")]> metadata)).



(** A stand-in for the builtin [float] on which examples are evaluated:
    it accepts the unsigned decimal integer literals of at most nine
    digits, where [float] returns that integer, and rejects every other
    string. *)
Fixpoint digits_value (acc : N) (s : pystr) : option N :=
  match s with
  | [] => Some acc
  | c :: s' =>
      if in_range 48 57 c then digits_value (10 * acc + (c - 48)) s' else None
  end.

Definition sample_float (s : pystr) : option float :=
  match s with
  | [] => None
  | _ :: _ =>
      if (length s <=? 9)%nat then
        n ← digits_value 0 s;
        Some (binary_normalize 53 1024 (Z.of_N n) 0 false)
      else None
  end.


(** ** The rest of the server: connection callback, client thread, start-up *)

(** The calls the source makes on the paho client. *)
Inductive client_call :=
  | Subscribe (topic_filter : pystr)
  | UsernamePwSet (username password : pystr)
  | Connect (host : pystr) (port keepalive : Z)
  | LoopForever.

(** [on_connect(client, userdata, flags, rc, properties)]: the calls made
    on [client]. [flags] and [properties] are not used by the source;
    the rest of the body is logging. *)
Definition on_connect (userdata : gmap string pystr) (rc : Z) :
    list client_call :=
  if (rc =? 0)%Z then
    let topic_prefix := dict_get userdata "topic_prefix" (py "shairport-sync") in
    [Subscribe (topic_prefix ++ py "/#")]
  else [].

(** The view behind [/health]. *)
Definition health : nat * gmap string json :=
  (200%nat, {[ "status" := JString (py "ok") ]}).

(** [bool(x)] for an optional string: [None] and [""] are false. *)
Definition given (x : option pystr) : bool :=
  match x with
  | Some (_ :: _) => true
  | _ => false
  end.

(** [run_mqtt_client(host, port, topic_prefix, username, password)]: the
    [userdata] handed to the client and the calls made on it.
    [connect_raises] tells whether [client.connect] raises; the source
    catches the exception and logs it. *)
Definition run_mqtt_client (host : pystr) (port : Z) (topic_prefix : pystr)
    (username password : option pystr) (connect_raises : bool) :
    gmap string pystr * list client_call :=
  let userdata : gmap string pystr := {[ "topic_prefix" := topic_prefix ]} in
  let credentials :=
    match username, password with
    | Some u, Some p =>
        if given username && given password then [UsernamePwSet u p] else []
    | _, _ => []
    end in
  (userdata,
   credentials ++
   Connect host port 60 ::
   (if connect_raises then [] else [LoopForever])).

(** The values [argparse] finds on the command line, option by option
    ([None]: the option is not given). *)
Record CommandLine := {
  cli_mqtt_host : option pystr;
  cli_mqtt_port : option pystr;
  cli_mqtt_user : option pystr;
  cli_mqtt_pass : option pystr;
  cli_topic_prefix : option pystr;
  cli_http_host : option pystr;
  cli_http_port : option pystr;
  cli_debug : bool
}.

(** The namespace [parse_args] returns. *)
Record Args := {
  args_mqtt_host : pystr;
  args_mqtt_port : Z;
  args_mqtt_user : option pystr;
  args_mqtt_pass : option pystr;
  args_topic_prefix : pystr;
  args_http_host : pystr;
  args_http_port : Z;
  args_debug : bool
}.

(** How [main] ends its start-up: [ValueError] while the parser is built,
    the usage error of [argparse] (exit status 2), or the thread and the
    Flask application started with the parsed arguments. *)
Inductive startup :=
  | StartupValueError
  | StartupUsageError
  | Started (args : Args).

(** [main()], up to the start of the thread and of the application.
    [builtin_int] is the builtin [int] on a [str] ([None]: [ValueError]),
    [environ] is [os.environ]. *)
Definition main (builtin_int : pystr -> option Z)
    (environ : gmap string pystr) (cli : CommandLine) : startup :=
  let default_mqtt_host := dict_get environ "MQTT_HOST" (py "localhost") in
  match (match environ !! "MQTT_PORT" with
         | Some s => builtin_int s
         | None => Some 1883%Z
         end) with
  | None => StartupValueError
  | Some default_mqtt_port =>
      let default_mqtt_user := environ !! "MQTT_USER" in
      let default_mqtt_pass := environ !! "MQTT_PASS" in
      let default_topic_prefix :=
        dict_get environ "TOPIC_PREFIX" (py "shairport-sync") in
      let default_http_host := dict_get environ "HTTP_HOST" (py "0.0.0.0") in
      match (match environ !! "HTTP_PORT" with
             | Some s => builtin_int s
             | None => Some 5000%Z
             end) with
      | None => StartupValueError
      | Some default_http_port =>
          match (match cli.(cli_mqtt_port) with
                 | Some s => builtin_int s
                 | None => Some default_mqtt_port
                 end),
                (match cli.(cli_http_port) with
                 | Some s => builtin_int s
                 | None => Some default_http_port
                 end) with
          | Some mqtt_port, Some http_port =>
              Started
                {| args_mqtt_host := default default_mqtt_host cli.(cli_mqtt_host);
                   args_mqtt_port := mqtt_port;
                   args_mqtt_user :=
                     match cli.(cli_mqtt_user) with
                     | Some u => Some u
                     | None => default_mqtt_user
                     end;
                   args_mqtt_pass :=
                     match cli.(cli_mqtt_pass) with
                     | Some p => Some p
                     | None => default_mqtt_pass
                     end;
                   args_topic_prefix :=
                     default default_topic_prefix cli.(cli_topic_prefix);
                   args_http_host := default default_http_host cli.(cli_http_host);
                   args_http_port := http_port;
                   args_debug := cli.(cli_debug) |}
          | _, _ => StartupUsageError
          end
      end
  end.

(** ** The display plugin ([shairport-display.py]) *)

(** Python objects as the plugin meets them: values of the settings, of
    a decoded JSON body and of the template parameters. *)
#[warnings="-register-all"]
Inductive pyobj :=
  | ONone
  | OBool (b : bool)
  | OInt (z : Z)
  | OFloat (f : float)
  | OStr (s : pystr)
  | OList (l : list pyobj)
  | ODict (d : gmap string pyobj).

(** [bool(v)]. *)
Definition truthy (v : pyobj) : bool :=
  match v with
  | ONone => false
  | OBool b => b
  | OInt z => negb (z =? 0)%Z
  | OFloat (S754_zero _) => false
  | OFloat _ => true
  | OStr s => match s with [] => false | _ :: _ => true end
  | OList l => match l with [] => false | _ :: _ => true end
  | ODict d => negb (size d =? 0)%nat
  end.

(** [v == "literal"]. *)
Definition eq_str (v : pyobj) (s : pystr) : bool :=
  match v with
  | OStr t => pyeq t s
  | _ => false
  end.

(** The exceptions of the plugin: [requests.RequestException] (any of
    its subclasses), [AttributeError], [KeyError], and whatever else the
    HTTP library may raise. *)
Inductive plugin_exn :=
  | RequestException
  | AttributeError
  | KeyError
  | OtherException.

Definition is_request_exception (e : plugin_exn) : bool :=
  match e with
  | RequestException => true
  | _ => false
  end.

Inductive returns (A : Type) :=
  | Returns (a : A)
  | Raises (e : plugin_exn).
Arguments Returns {A} a.
Arguments Raises {A} e.

(** What [response.json()] does, and what [requests.get] does. *)
Inductive json_outcome :=
  | JsonReturns (data : pyobj)
  | JsonRaises (e : plugin_exn).

Inductive http_outcome :=
  | GetRaises (e : plugin_exn)
  | GetReturns (status_code : Z) (json_body : json_outcome).

(** The device configuration, as far as [generate_image] asks it. *)
Record DeviceConfig := {
  get_resolution : list Z;
  get_config : string -> pyobj
}.

(** Computations on the local dictionary [metadata] of [_get_metadata]
    that may raise. *)
Definition P (A : Type) : Type :=
  gmap string pyobj -> returns A * gmap string pyobj.

Definition pret {A} (a : A) : P A := fun md => (Returns a, md).

Definition praise {A} (e : plugin_exn) : P A := fun md => (Raises e, md).

Definition pbind {A B} (m : P A) (k : A -> P B) : P B := fun md =>
  match m md with
  | (Returns a, md') => k a md'
  | (Raises e, md') => (Raises e, md')
  end.

Definition plift {A} (r : returns A) : P A := fun md => (r, md).

(** [metadata[k] = v] and [metadata[k]]. *)
Definition local_set (k : string) (v : pyobj) : P unit := fun md =>
  (Returns tt, <[k := v]> md).

Definition local_get (k : string) : P pyobj := fun md =>
  (match md !! k with
   | Some v => Returns v
   | None => Raises KeyError
   end, md).

(** [data.get(k, dflt)]: the attribute is looked up before the default is
    evaluated; only a [dict] has it. *)
Definition get_or (data : pyobj) (k : string) (dflt : P pyobj) : P pyobj :=
  match data with
  | ODict d => pbind dflt (fun x => pret (dict_get d k x))
  | _ => praise AttributeError
  end.

(** [try: body / except requests.RequestException: handler]. *)
Definition except_request (body handler : P unit) : P unit := fun md =>
  match body md with
  | (Raises e, md') =>
      if is_request_exception e then handler md' else (Raises e, md')
  | ok => ok
  end.

Notation "x <~ m ;; k" := (pbind m (fun x => k))
  (at level 100, m at next level, right associativity).
Notation "m ;;~ k" := (pbind m (fun _ => k))
  (at level 100, right associativity).

Section Display.

(** [requests.get(url, timeout=5)]. *)
Variable requests_get : pyobj -> http_outcome.

(** The builtin [str] on an object that is not a [str]. *)
Variable builtin_str : pyobj -> pystr.

(** Images, and [render_image] of the base plugin class. *)
Variable Image : Type.
Variable render_image :
  list Z -> pystr -> pystr -> gmap string pyobj -> Image.

(** [f"{v}"]. *)
Definition fstring_of (v : pyobj) : pystr :=
  match v with
  | OStr s => s
  | _ => builtin_str v
  end.

(** [_get_metadata(self, settings)]. *)
Definition _get_metadata (settings : gmap string pyobj) :
    returns (gmap string pyobj) :=
  let metadata : gmap string pyobj :=
    list_to_map
      [ ("title", dict_get settings "default_title" (OStr (py "Not Playing")));
        ("artist", dict_get settings "default_artist" (OStr (py "")));
        ("album", dict_get settings "default_album" (OStr (py "")));
        ("artwork_data", ONone);
        ("is_playing", OBool false) ] in
  let metadata_url :=
    dict_get settings "metadata_url"
      (OStr (py "http://localhost:5000/metadata")) in
  let run :=
    except_request
      (match requests_get metadata_url with
       | GetRaises e => praise e
       | GetReturns status_code json_body =>
           if (status_code =? 200)%Z then
             data <~ plift (match json_body with
                            | JsonReturns data => Returns data
                            | JsonRaises e => Raises e
                            end) ;;
             title <~ get_or data "title" (local_get "title") ;;
             local_set "title" title ;;~
             artist <~ get_or data "artist" (local_get "artist") ;;
             local_set "artist" artist ;;~
             album <~ get_or data "album" (local_get "album") ;;
             local_set "album" album ;;~
             is_playing <~ get_or data "is_playing" (pret (OBool false)) ;;
             local_set "is_playing" is_playing ;;~
             artwork_url <~ get_or data "artwork_url" (pret ONone) ;;
             artwork_base64 <~ get_or data "artwork_base64" (pret ONone) ;;
             if truthy artwork_base64 then
               local_set "artwork_data"
                 (OStr (py "data:image/jpeg;base64," ++ fstring_of artwork_base64))
             else if truthy artwork_url then
               local_set "artwork_data" artwork_url
             else pret tt
           else pret tt
       end)
      (pret tt)
      metadata in
  match run with
  | (Returns _, metadata) => Returns metadata
  | (Raises e, _) => Raises e
  end.

(** [generate_image(self, settings, device_config)]. *)
Definition generate_image (settings : gmap string pyobj)
    (device_config : DeviceConfig) : returns Image :=
  let dimensions := device_config.(get_resolution) in
  let dimensions :=
    if eq_str (device_config.(get_config) "orientation") (py "vertical")
    then rev dimensions
    else dimensions in
  match _get_metadata settings with
  | Raises e => Raises e
  | Returns metadata =>
      let template_params : gmap string pyobj :=
        list_to_map
          [ ("title", dict_get metadata "title" (OStr (py "Not Playing")));
            ("artist", dict_get metadata "artist" (OStr (py "")));
            ("album", dict_get metadata "album" (OStr (py "")));
            ("artwork_data", dict_get metadata "artwork_data" ONone);
            ("is_playing", dict_get metadata "is_playing" (OBool false));
            ("plugin_settings", ODict settings) ] in
      Returns
        (render_image dimensions (py "shairport-display.html")
           (py "shairport-display.css") template_params)
  end.

End Display.

(** *** The response of the server, as the plugin receives it

    What [requests.get] returns when it reaches [/metadata]: the status
    code and, from [response.json()], the object that the JSON text
    written by [jsonify] denotes. *)
Definition obj_of_json (j : json) : pyobj :=
  match j with
  | JNull => ONone
  | JBool b => OBool b
  | JInt z => OInt z
  | JFloat f => OFloat f
  | JString s => OStr s
  end.

Definition received (r : nat * gmap string json) : http_outcome :=
  GetReturns (Z.of_nat r.1) (JsonReturns (ODict (obj_of_json <$> r.2))).

(** *** What [_get_metadata] computes, spelled out

    The URL asked, the defaults taken from the settings, and the value
    given to [artwork_data] for a JSON object [data]. *)
Definition metadata_url_of (settings : gmap string pyobj) : pyobj :=
  dict_get settings "metadata_url" (OStr (py "http://localhost:5000/metadata")).

Definition default_of (settings : gmap string pyobj) (k : string) : pyobj :=
  if String.eqb k "title" then
    dict_get settings "default_title" (OStr (py "Not Playing"))
  else if String.eqb k "artist" then
    dict_get settings "default_artist" (OStr (py ""))
  else if String.eqb k "album" then
    dict_get settings "default_album" (OStr (py ""))
  else if String.eqb k "is_playing" then OBool false
  else ONone.

(** The dictionary [_get_metadata] starts from. *)
Definition plugin_defaults (settings : gmap string pyobj) :
    gmap string pyobj :=
  list_to_map
    [ ("title", default_of settings "title");
      ("artist", default_of settings "artist");
      ("album", default_of settings "album");
      ("artwork_data", ONone);
      ("is_playing", OBool false) ].

Definition plugin_keys : gset string :=
  {[ "title"; "artist"; "album"; "artwork_data"; "is_playing" ]}.

Definition artwork_data_of (builtin_str : pyobj -> pystr)
    (data : gmap string pyobj) : pyobj :=
  if truthy (dict_get data "artwork_base64" ONone) then
    OStr (py "data:image/jpeg;base64," ++
          fstring_of builtin_str (dict_get data "artwork_base64" ONone))
  else if truthy (dict_get data "artwork_url" ONone) then
    dict_get data "artwork_url" ONone
  else ONone.

(** *** Sample inputs for the plugin and for start-up *)

(** An HTTP library that gives the same outcome for every URL. *)
Definition always (o : http_outcome) : pyobj -> http_outcome := fun _ => o.

(** A stand-in for [str] on objects that are not strings; the samples
    never reach it. *)
Definition sample_str (v : pyobj) : pystr := py "?".

(** A stand-in for the builtin [int]: the unsigned decimal literals. *)
Definition sample_int (s : pystr) : option Z :=
  match s with
  | [] => None
  | _ :: _ => n ← digits_value 0 s; Some (Z.of_N n)
  end.

(** A command line that gives the MQTT port and the topic prefix. *)
Definition sample_cli : CommandLine :=
  {| cli_mqtt_host := None;
     cli_mqtt_port := Some (py "1884");
     cli_mqtt_user := None;
     cli_mqtt_pass := None;
     cli_topic_prefix := Some (py "kitchen");
     cli_http_host := None;
     cli_http_port := None;
     cli_debug := false |}.

Section Server.

(** The paho client object handed to the callback. *)
Variable Client : Type.

(** The builtin [float] on a [str]: [None] stands for [ValueError]. *)
Variable builtin_float : pystr -> option float.

Definition float_of (s : pystr) : res float :=
  match builtin_float s with
  | Some f => Ret f
  | None => Raise ValueError
  end.

(** The relative topic the callback computes for a message. *)
Definition relative_of (userdata : gmap string pystr) (msg : MQTTMessage) :
    pystr :=
  relative_topic msg.(topic)
    (dict_get userdata "topic_prefix" (py "shairport-sync")).

(** The callback. The [logger] calls of the source are left out: none
    assigns to [metadata]; five of them format, for the log, the value
    the statement before has just stored. *)
Definition on_message (client : Client) (userdata : gmap string pystr)
    (msg : MQTTMessage) : M unit :=
  let topic := msg.(topic) in
  let topic_prefix := dict_get userdata "topic_prefix" (py "shairport-sync") in
  let relative_topic := relative_topic topic topic_prefix in
  try_except
    (if pyeq relative_topic (py "artist") then
       s <- lift (decode_utf8 msg.(payload)) ;;
       setitem "artist" (VStr s)
     else if pyeq relative_topic (py "title") then
       s <- lift (decode_utf8 msg.(payload)) ;;
       setitem "title" (VStr s)
     else if pyeq relative_topic (py "album") then
       s <- lift (decode_utf8 msg.(payload)) ;;
       setitem "album" (VStr s)
     else if pyeq relative_topic (py "genre") then
       s <- lift (decode_utf8 msg.(payload)) ;;
       setitem "genre" (VStr s)
     else if pyeq relative_topic (py "cover")
             || pyeq relative_topic (py "artwork") then
       match msg.(payload) with
       | _ :: _ =>
           s <- lift (decode_utf8 (b64encode msg.(payload))) ;;
           setitem "artwork_base64" (VStr s)
       | [] => setitem "artwork_base64" VNone
       end
     else if pyeq relative_topic (py "play_start")
             || pyeq relative_topic (py "play_resume") then
       setitem "is_playing" (VBool true) ;;;
       setitem "player_state" (VStr (py "playing"))
     else if pyeq relative_topic (py "play_end")
             || pyeq relative_topic (py "play_flush") then
       setitem "is_playing" (VBool false) ;;;
       setitem "player_state" (VStr (py "stopped")) ;;;
       setitem "title" (VStr (py "")) ;;;
       setitem "artist" (VStr (py "")) ;;;
       setitem "album" (VStr (py "")) ;;;
       setitem "artwork_base64" VNone
     else if pyeq relative_topic (py "pause") then
       setitem "is_playing" (VBool false) ;;;
       setitem "player_state" (VStr (py "paused"))
     else if pyeq relative_topic (py "volume") then
       try_except
         (s <- lift (decode_utf8 msg.(payload)) ;;
          f <- lift (float_of s) ;;
          setitem "volume" (VFloat f))
         ClsValueError
         (fun _ => ret tt)
     else if pyeq relative_topic (py "client_name") then
       s <- lift (decode_utf8 msg.(payload)) ;;
       setitem "client_name" (VStr s)
     else if pyeq relative_topic (py "active_start") then
       ret tt
     else if pyeq relative_topic (py "active_end") then
       setitem "is_playing" (VBool false) ;;;
       setitem "player_state" (VStr (py "stopped")) ;;;
       setitem "title" (VStr (py "")) ;;;
       setitem "artist" (VStr (py "")) ;;;
       setitem "album" (VStr (py "")) ;;;
       setitem "artwork_base64" VNone
     else ret tt)
    ClsException
    (fun _ => ret tt).

(** The delivery loop of the MQTT thread on the messages that arrive,
    in order of arrival. An exception that escapes the callback ends
    the loop. *)
Fixpoint loop_forever (client : Client) (userdata : gmap string pystr)
    (msgs : list MQTTMessage) : M unit :=
  match msgs with
  | [] => ret tt
  | msg :: rest =>
      on_message client userdata msg ;;;
      loop_forever client userdata rest
  end.

(** The dictionary once the messages have been handled, from the
    initial [metadata]. *)
Definition state_after (client : Client) (userdata : gmap string pystr)
    (msgs : list MQTTMessage) : gmap string pyval :=
  after (loop_forever client userdata msgs metadata).

(** *** The two threads

    The MQTT thread runs [on_message]; the Flask thread runs
    [get_metadata]. The source takes no lock: the interpreter makes one
    item assignment atomic and nothing more, so the Flask thread can run
    between any two item assignments of a callback. A configuration
    holds the dictionary, the item assignments that the running callback
    has still to execute, and the messages not yet delivered. *)
Record config := Config {
  cur : gmap string pyval;
  pending : list (string * pyval);
  inbox : list MQTTMessage
}.

Inductive step (client : Client) (userdata : gmap string pystr) :
    config -> config -> Prop :=
  | step_deliver d msg rest :
      let o := on_message client userdata msg d in
      step client userdata
        (Config d [] (msg :: rest))
        (Config d (stores o)
           (match result o with Ret _ => rest | Raise _ => [] end))
  | step_store d kv ws rest :
      step client userdata
        (Config d (kv :: ws) rest)
        (Config (setitem_op d kv) ws rest).

(** What a request to [/metadata] returns when it is served in
    configuration [c]; serialising the dictionary is taken as one step. *)
Definition read (c : config) : nat * gmap string json := get_metadata (cur c).

(** *** The effect of one message, as a relation

    [effect rt p ws]: a message with relative topic [rt] and payload [p]
    makes the callback execute the item assignments [ws]. One
    constructor per path through the [if]/[elif] chain. *)
Inductive effect (rt : pystr) (p : bytes) : list (string * pyval) -> Prop :=
  | eff_text k s :
      In k text_topics -> rt = py k -> utf8_decode p = Some s ->
      effect rt p [(k, VStr s)]
  | eff_text_undecodable k :
      In k text_topics -> rt = py k -> utf8_decode p = None ->
      effect rt p []
  | eff_artwork :
      rt = py "cover" \/ rt = py "artwork" -> p <> [] ->
      effect rt p [("artwork_base64", VStr (List.map Byte.to_N (b64encode p)))]
  | eff_artwork_cleared :
      rt = py "cover" \/ rt = py "artwork" -> p = [] ->
      effect rt p [("artwork_base64", VNone)]
  | eff_play :
      rt = py "play_start" \/ rt = py "play_resume" ->
      effect rt p [("is_playing", VBool true);
                   ("player_state", VStr (py "playing"))]
  | eff_stop :
      rt = py "play_end" \/ rt = py "play_flush" \/ rt = py "active_end" ->
      effect rt p stop_stores
  | eff_pause :
      rt = py "pause" ->
      effect rt p [("is_playing", VBool false);
                   ("player_state", VStr (py "paused"))]
  | eff_volume s f :
      rt = py "volume" -> utf8_decode p = Some s -> builtin_float s = Some f ->
      effect rt p [("volume", VFloat f)]
  | eff_volume_undecodable :
      rt = py "volume" -> utf8_decode p = None ->
      effect rt p []
  | eff_volume_unparsable s :
      rt = py "volume" -> utf8_decode p = Some s -> builtin_float s = None ->
      effect rt p []
  | eff_active_start :
      rt = py "active_start" ->
      effect rt p []
  | eff_unknown :
      (forall k, In k known_topics -> rt <> py k) ->
      effect rt p [].

(** Configurations the two threads can reach while [msgs] arrive. *)
Definition start (msgs : list MQTTMessage) : config :=
  Config metadata [] msgs.

Definition reachable (client : Client) (userdata : gmap string pystr)
    (msgs : list MQTTMessage) (c : config) : Prop :=
  rtc (step client userdata) (start msgs) c.

(** A message whose handling fails: a text topic with a payload that is
    not UTF-8, or a volume whose payload is not UTF-8 or is not accepted
    by [float]. *)
Definition malformed (userdata : gmap string pystr) (msg : MQTTMessage) :
    Prop :=
  (exists k, In k text_topics /\ relative_of userdata msg = py k /\
             utf8_decode msg.(payload) = None) \/
  (relative_of userdata msg = py "volume" /\
   (utf8_decode msg.(payload) = None \/
    exists s, utf8_decode msg.(payload) = Some s /\ builtin_float s = None)).




(** The keys a message makes the callback assign. *)
Definition assigned (client : Client) (userdata : gmap string pystr)
    (msg : MQTTMessage) : list string :=
  List.map fst (stores (on_message client userdata msg metadata)).

(** ** Strings, UTF-8 and base64 *)
Lemma pyeq_eq (a b : pystr) : pyeq a b = true <-> a = b.
Proof.
  revert b. induction a as [|x a IH]; intros [|y b]; simpl; try (split; congruence).
  rewrite andb_true_iff, N.eqb_eq, IH. split.
  - intros [-> ->]; reflexivity.
  - intros H; injection H; auto.
Qed.

Lemma pyeq_neq (a b : pystr) : pyeq a b = false <-> a <> b.
Proof.
  rewrite <- pyeq_eq. destruct (pyeq a b); split; congruence.
Qed.

Lemma utf8_decode_ascii (bs : bytes) :
  Forall (fun b => Byte.to_N b < 0x80) bs ->
  utf8_decode bs = Some (List.map Byte.to_N bs).
Proof.
  induction 1 as [|b bs Hb _ IH]; [reflexivity|].
  cbn [utf8_decode List.map]. apply N.ltb_lt in Hb. rewrite Hb, IH. reflexivity.
Qed.

(** Induction three elements at a time, the recursion of [b64encode]. *)
Lemma list_ind3 {A} (P : list A -> Prop) :
  P [] -> (forall a, P [a]) -> (forall a b, P [a; b]) ->
  (forall a b c r, P r -> P (a :: b :: c :: r)) ->
  forall l, P l.
Proof.
  intros H0 H1 H2 H3.
  fix IH 1. intros [|a [|b [|c r]]];
    [apply H0 | apply H1 | apply H2 | apply H3, IH].
Qed.

Lemma b64_char_ascii (i : N) : Byte.to_N (b64_char i) < 0x80.
Proof.
  unfold b64_char. generalize (N.to_nat i) as n. intros n.
  do 65 (destruct n as [|n]; [reflexivity|]).
  destruct n; reflexivity.
Qed.

Lemma b64encode_ascii (bs : bytes) :
  Forall (fun b => Byte.to_N b < 0x80) (b64encode bs).
Proof.
  induction bs as [|a|a b|a b c r IH] using list_ind3; cbn [b64encode];
    repeat (constructor; [solve [apply b64_char_ascii | reflexivity] |]);
    solve [constructor | assumption].
Qed.

Lemma decode_b64encode (p : bytes) :
  decode_utf8 (b64encode p) = Ret (List.map Byte.to_N (b64encode p)).
Proof.
  unfold decode_utf8. rewrite utf8_decode_ascii by apply b64encode_ascii.
  reflexivity.
Qed.

Lemma N_range_complete (n : nat) (x : N) : x < N.of_nat n -> In x (N_range n).
Proof.
  intros H. unfold N_range. apply in_map_iff. exists (N.to_nat x). split.
  - apply N2Nat.id.
  - apply in_seq. lia.
Qed.

Lemma check_below (n : nat) (P : N -> bool) :
  forallb P (N_range n) = true -> forall x, x < N.of_nat n -> P x = true.
Proof.
  intros H x Hx. rewrite forallb_forall in H. apply H, N_range_complete, Hx.
Qed.

Lemma check_below2 (n m : nat) (P : N -> N -> bool) :
  forallb (fun x => forallb (P x) (N_range m)) (N_range n) = true ->
  forall x y, x < N.of_nat n -> y < N.of_nat m -> P x y = true.
Proof.
  intros H x y Hx Hy.
  apply (check_below m (P x)); [|exact Hy].
  apply (check_below n (fun x => forallb (P x) (N_range m))); assumption.
Qed.

Lemma b64_index_char (i : N) : i < 64 -> b64_index (Byte.to_N (b64_char i)) = Some i.
Proof.
  intros H.
  apply (check_below 64 (fun i =>
    match b64_index (Byte.to_N (b64_char i)) with
    | Some j => j =? i
    | None => false
    end)) in H; [|vm_compute; reflexivity].
  destruct (b64_index _) as [j|]; [|discriminate].
  apply N.eqb_eq in H. congruence.
Qed.

Lemma b64_char_not_pad (i : N) :
  i < 64 -> (Byte.to_N (b64_char i) =? Byte.to_N b64_pad) = false.
Proof.
  intros H.
  apply (check_below 64 (fun i =>
    negb (Byte.to_N (b64_char i) =? Byte.to_N b64_pad))) in H;
    [|vm_compute; reflexivity].
  apply negb_true_iff in H. exact H.
Qed.

Lemma sextets_octets (x y : N) :
  x < 256 -> y < 256 ->
  sextet0 x < 64 /\ sextet1 x y < 64 /\ sextet2 x y < 64 /\ sextet3 x < 64 /\
  N.lor (N.shiftl (sextet0 x) 2) (N.shiftr (sextet1 x y) 4) = x /\
  N.land (sextet1 x y) 0x0F = N.shiftr y 4 /\
  N.shiftr (sextet2 x y) 2 = N.land x 0x0F /\
  N.lor (N.shiftl (N.shiftr x 4) 4) (N.land x 0x0F) = x /\
  N.lor (N.shiftl (N.land (sextet2 x y) 0x03) 6) (sextet3 y) = y.
Proof.
  intros Hx Hy.
  pose proof (check_below2 256 256 (fun x y =>
    (sextet0 x <? 64) && (sextet1 x y <? 64) && (sextet2 x y <? 64) &&
    (sextet3 x <? 64) &&
    (N.lor (N.shiftl (sextet0 x) 2) (N.shiftr (sextet1 x y) 4) =? x) &&
    (N.land (sextet1 x y) 0x0F =? N.shiftr y 4) &&
    (N.shiftr (sextet2 x y) 2 =? N.land x 0x0F) &&
    (N.lor (N.shiftl (N.shiftr x 4) 4) (N.land x 0x0F) =? x) &&
    (N.lor (N.shiftl (N.land (sextet2 x y) 0x03) 6) (sextet3 y) =? y))) as H.
  specialize (H ltac:(vm_compute; reflexivity) x y Hx Hy).
  repeat (apply andb_true_iff in H; destruct H as [H ?]).
  repeat match goal with
  | H : (_ <? _) = true |- _ => apply N.ltb_lt in H
  | H : (_ =? _) = true |- _ => apply N.eqb_eq in H
  end.
  repeat split; assumption.
Qed.

Lemma byte_lt (a : byte) : Byte.to_N a < 256.
Proof. pose proof (Byte.to_N_bounded a). lia. Qed.

Lemma octets_of_sextets (x y z : N) :
  x < 256 -> y < 256 -> z < 256 ->
  octet0 (sextet0 x) (sextet1 x y) = Byte.of_N x /\
  octet1 (sextet1 x y) (sextet2 y z) = Byte.of_N y /\
  octet2 (sextet2 y z) (sextet3 z) = Byte.of_N z.
Proof.
  intros Hx Hy Hz.
  destruct (sextets_octets x y Hx Hy) as (_ & _ & _ & _ & E0 & E1 & _).
  destruct (sextets_octets y z Hy Hz) as (_ & _ & _ & _ & _ & _ & E2 & E3 & E4).
  unfold octet0, octet1, octet2. rewrite E0, E1, E2, E3, E4. auto.
Qed.

Lemma sextets_lt (x y : N) :
  x < 256 -> y < 256 ->
  sextet0 x < 64 /\ sextet1 x y < 64 /\ sextet2 x y < 64 /\ sextet3 x < 64.
Proof.
  intros Hx Hy. destruct (sextets_octets x y Hx Hy) as (? & ? & ? & ? & _).
  auto.
Qed.

Lemma b64encode_cons (a : byte) (r : bytes) :
  exists c t, b64encode (a :: r) = c :: t.
Proof. destruct r as [|b [|c r]]; cbn [b64encode]; eauto. Qed.

Lemma b64_roundtrip (p : bytes) :
  b64decode (List.map Byte.to_N (b64encode p)) = Some p.
Proof.
  induction p as [|a|a b|a b c r IH] using list_ind3.
  - reflexivity.
  - pose proof (byte_lt a) as Ha.
    destruct (sextets_lt (Byte.to_N a) 0 Ha eq_refl) as (L0 & L1 & _).
    destruct (octets_of_sextets (Byte.to_N a) 0 0 Ha eq_refl eq_refl) as (O0 & _).
    cbn [b64encode List.map b64decode].
    rewrite N.eqb_refl. cbn [andb].
    rewrite !b64_index_char by assumption. cbn [mbind option_bind].
    rewrite O0, Byte.of_to_N. reflexivity.
  - pose proof (byte_lt a) as Ha. pose proof (byte_lt b) as Hb.
    destruct (sextets_lt (Byte.to_N a) (Byte.to_N b) Ha Hb) as (L0 & L1 & _).
    destruct (sextets_lt (Byte.to_N b) 0 Hb eq_refl) as (_ & _ & L2 & _).
    destruct (octets_of_sextets (Byte.to_N a) (Byte.to_N b) 0 Ha Hb eq_refl)
      as (O0 & O1 & _).
    cbn [b64encode List.map b64decode].
    rewrite N.eqb_refl, (b64_char_not_pad _ L2). cbn [andb].
    rewrite !b64_index_char by assumption. cbn [mbind option_bind].
    rewrite O0, O1, !Byte.of_to_N. reflexivity.
  - pose proof (byte_lt a) as Ha. pose proof (byte_lt b) as Hb.
    pose proof (byte_lt c) as Hc.
    destruct (sextets_lt (Byte.to_N a) (Byte.to_N b) Ha Hb) as (L0 & L1 & _).
    destruct (sextets_lt (Byte.to_N b) (Byte.to_N c) Hb Hc) as (_ & _ & L2 & _).
    destruct (sextets_lt (Byte.to_N c) 0 Hc eq_refl) as (_ & _ & _ & L3).
    destruct (octets_of_sextets _ _ _ Ha Hb Hc) as (O0 & O1 & O2).
    cbn [b64encode List.map].
    destruct r as [|a' r'].
    + cbn [b64encode List.map b64decode].
      rewrite (b64_char_not_pad _ L3). cbn [andb].
      rewrite !b64_index_char by assumption. cbn [mbind option_bind].
      rewrite O0, O1, O2, !Byte.of_to_N. reflexivity.
    + destruct (b64encode_cons a' r') as (ch & t & E).
      rewrite E in *. cbn [List.map b64decode] in *.
      rewrite !b64_index_char by assumption. cbn [mbind option_bind].
      rewrite O0, O1, O2, !Byte.of_to_N. cbn [mbind option_bind].
      rewrite IH. reflexivity.
Qed.

(** ** The callback, path by path *)

(** Side conditions of the constructors of [effect]. *)
Ltac known_topic :=
  match goal with
  | |- In _ _ => simpl; tauto
  | |- _ \/ _ => tauto
  | _ => eauto
  end.

(** One test of the [if]/[elif] chain. *)
Ltac split_topic rt k :=
  let E := fresh "E" in
  destruct (pyeq rt (py k)) eqn:E;
  [apply pyeq_eq in E | apply pyeq_neq in E];
  cbn [orb]; cbv iota.

Ltac run_monad :=
  cbv [try_except bind lift ret raise setitem isinstance
       result after stores app].

(** The payload tests of a branch: empty or not, UTF-8 or not, accepted
    by [float] or not. *)
Ltac split_inputs :=
  try match goal with
  | |- context [match payload ?m with _ => _ end] =>
      destruct (payload m) eqn:?; [|rewrite decode_b64encode]
  end;
  unfold float_of, decode_utf8;
  try match goal with
  | |- context [match utf8_decode ?p with _ => _ end] =>
      destruct (utf8_decode p) eqn:?
  end;
  run_monad;
  try match goal with
  | |- context [match builtin_float ?s with _ => _ end] =>
      destruct (builtin_float s) eqn:?
  end;
  run_monad.

Ltac pick_effect :=
  let close c := solve [eapply c; try eassumption; known_topic] in
  first
    [ close eff_text | close eff_text_undecodable
    | solve [eapply eff_artwork; [known_topic | congruence]]
    | close eff_artwork_cleared | close eff_play | close eff_stop
    | close eff_pause | close eff_volume | close eff_volume_undecodable
    | close eff_volume_unparsable | close eff_active_start ].

Ltac branch_done :=
  split_inputs; (split; [pick_effect | split; reflexivity]).

Lemma on_message_effect client userdata msg d :
  let o := on_message client userdata msg d in
  effect (relative_of userdata msg) msg.(payload) (stores o) /\
  result o = Ret tt /\
  after o = store_all (stores o) d.
Proof.
  cbv zeta. unfold on_message.
  fold (relative_of userdata msg).
  set (rt := relative_of _ _). clearbody rt.
  split_topic rt "artist"; [branch_done|].
  split_topic rt "title"; [branch_done|].
  split_topic rt "album"; [branch_done|].
  split_topic rt "genre"; [branch_done|].
  split_topic rt "cover"; [branch_done|].
  split_topic rt "artwork"; [branch_done|].
  split_topic rt "play_start"; [branch_done|].
  split_topic rt "play_resume"; [branch_done|].
  split_topic rt "play_end"; [branch_done|].
  split_topic rt "play_flush"; [branch_done|].
  split_topic rt "pause"; [branch_done|].
  split_topic rt "volume"; [branch_done|].
  split_topic rt "client_name"; [branch_done|].
  split_topic rt "active_start"; [branch_done|].
  split_topic rt "active_end"; [branch_done|].
  split; [|split; reflexivity].
  apply eff_unknown. intros k Hk. simpl in Hk.
  repeat (destruct Hk as [<-|Hk]; [assumption|]). destruct Hk.
Qed.

(** Two paths through the chain never fit the same message. *)
Ltac topic_clash :=
  match goal with
  | H : py _ = py _ |- _ => vm_compute in H; discriminate H
  | H : forall k, In k known_topics -> py ?t <> py k |- _ =>
      exfalso; apply (H t); [vm_compute; tauto | reflexivity]
  end.

Ltac open_topics :=
  repeat match goal with
  | H : In _ text_topics |- _ =>
      simpl in H;
      repeat (destruct H as [<-|H]); [..|destruct H]
  | H : _ = py _ \/ _ |- _ => destruct H as [H|H]
  end.

Lemma effect_functional rt p ws1 ws2 :
  effect rt p ws1 -> effect rt p ws2 -> ws1 = ws2.
Proof.
  intros H1 H2.
  destruct H1; open_topics; try subst rt;
    (destruct H2; open_topics; try subst rt;
     first [reflexivity | congruence | topic_clash]).
Qed.

Lemma on_message_run client userdata msg d ws :
  effect (relative_of userdata msg) msg.(payload) ws ->
  on_message client userdata msg d = Outcome (Ret tt) (store_all ws d) ws.
Proof.
  intros H.
  destruct (on_message_effect client userdata msg d) as (He & Hr & Ha).
  rewrite (effect_functional _ _ _ _ H He).
  destruct (on_message client userdata msg d) as [r a w]; simpl in *.
  congruence.
Qed.

(** ** Runs of item assignments and of the delivery loop *)

Lemma store_all_app ws1 ws2 d :
  store_all (ws1 ++ ws2) d = store_all ws2 (store_all ws1 d).
Proof. unfold store_all. apply foldl_app. Qed.

Lemma store_all_frame ws d k :
  ~ In k (List.map fst ws) -> store_all ws d !! k = d !! k.
Proof.
  revert d. induction ws as [|[k' v] ws IH]; intros d Hk; [reflexivity|].
  cbn [store_all foldl] in *. fold (store_all ws (setitem_op d (k', v))).
  rewrite IH by (intros ?; apply Hk; right; assumption).
  unfold setitem_op. cbn [fst snd]. apply lookup_insert_ne.
  intros ->. apply Hk. left. reflexivity.
Qed.

Lemma on_message_returns client userdata msg d :
  result (on_message client userdata msg d) = Ret tt.
Proof. apply on_message_effect. Qed.

Lemma on_message_after client userdata msg d :
  after (on_message client userdata msg d) =
  store_all (stores (on_message client userdata msg d)) d.
Proof. apply on_message_effect. Qed.

Lemma outcome_eta {A} (o : outcome A) :
  Outcome (result o) (after o) (stores o) = o.
Proof. destruct o; reflexivity. Qed.

Lemma loop_forever_cons client userdata msg rest d :
  loop_forever client userdata (msg :: rest) d =
  Outcome
    (result (loop_forever client userdata rest
               (after (on_message client userdata msg d))))
    (after (loop_forever client userdata rest
              (after (on_message client userdata msg d))))
    (stores (on_message client userdata msg d) ++
     stores (loop_forever client userdata rest
               (after (on_message client userdata msg d)))).
Proof.
  cbn [loop_forever]. unfold bind. rewrite on_message_returns. reflexivity.
Qed.

Lemma loop_forever_app client userdata msgs1 msgs2 d :
  loop_forever client userdata (msgs1 ++ msgs2) d =
  Outcome
    (result (loop_forever client userdata msgs2
               (after (loop_forever client userdata msgs1 d))))
    (after (loop_forever client userdata msgs2
              (after (loop_forever client userdata msgs1 d))))
    (stores (loop_forever client userdata msgs1 d) ++
     stores (loop_forever client userdata msgs2
               (after (loop_forever client userdata msgs1 d)))).
Proof.
  revert d. induction msgs1 as [|m ms IH]; intros d.
  - cbn [loop_forever app ret after stores]. symmetry. apply outcome_eta.
  - rewrite <- app_comm_cons, !loop_forever_cons, IH.
    cbn [after stores result]. rewrite app_assoc. reflexivity.
Qed.

Lemma loop_forever_ok client userdata msgs d :
  result (loop_forever client userdata msgs d) = Ret tt /\
  after (loop_forever client userdata msgs d) =
  store_all (stores (loop_forever client userdata msgs d)) d.
Proof.
  revert d. induction msgs as [|m ms IH]; intros d.
  - split; reflexivity.
  - rewrite loop_forever_cons. cbn [result after stores].
    destruct (IH (after (on_message client userdata m d))) as [Hr Ha].
    split; [exact Hr|].
    rewrite store_all_app, <- on_message_after. exact Ha.
Qed.

Lemma state_after_snoc client userdata msgs msg :
  state_after client userdata (msgs ++ [msg]) =
  after (on_message client userdata msg (state_after client userdata msgs)).
Proof.
  unfold state_after. rewrite loop_forever_app, loop_forever_cons.
  reflexivity.
Qed.

Lemma stop_stores_clear d : stopped_and_cleared (store_all stop_stores d).
Proof.
  unfold stopped_and_cleared, stop_stores, store_all, setitem_op.
  cbn [foldl fst snd]. repeat split; by simplify_map_eq.
Qed.

(** ** The claims *)

(** Case analysis on the path a message takes. *)
Ltac on_path client userdata msg d :=
  let He := fresh "He" in
  let Ha := fresh "Ha" in
  let ws := fresh "ws" in
  destruct (on_message_effect client userdata msg d) as (He & _ & Ha);
  rewrite ?Ha; clear Ha;
  generalize dependent (stores (on_message client userdata msg d));
  intros ws He; destruct He; open_topics.

Ltac run_stores :=
  unfold store_all, stop_stores, setitem_op; cbn [foldl fst snd].

(** C1. After a message whose relative topic is [play_end], [play_flush]
    or [active_end], whatever the dictionary held before (and so after
    any sequence of messages from the initial dictionary), [title],
    [artist] and [album] are empty, [artwork_base64] is [None],
    [is_playing] is [False] and [player_state] is ["stopped"]. Moreover
    a callback that assigns ["stopped"] to [player_state] executes
    exactly the six assignments of the stop branch, so the track fields
    are cleared by the same callback. *)
Theorem C1_stop_clears_track client userdata msg :
  (relative_of userdata msg = py "play_end" \/
   relative_of userdata msg = py "play_flush" \/
   relative_of userdata msg = py "active_end" ->
   (forall d,
      stopped_and_cleared (after (on_message client userdata msg d))) /\
   (forall msgs,
      stopped_and_cleared (state_after client userdata (msgs ++ [msg])))) /\
  (forall d,
     In ("player_state", VStr (py "stopped"))
        (stores (on_message client userdata msg d)) ->
     stores (on_message client userdata msg d) = stop_stores /\
     stopped_and_cleared (after (on_message client userdata msg d))).
Proof.
  split.
  - intros Hrt.
    assert (Hd : forall d,
      stopped_and_cleared (after (on_message client userdata msg d))).
    { intros d. rewrite (on_message_run client userdata msg d stop_stores).
      - apply stop_stores_clear.
      - apply eff_stop, Hrt. }
    split; [exact Hd|].
    intros msgs. rewrite state_after_snoc. apply Hd.
  - intros d Hin.
    rewrite on_message_after.
    destruct (on_message_effect client userdata msg d) as (He & _).
    generalize dependent (stores (on_message client userdata msg d)).
    intros ws Hin He.
    destruct He; open_topics; cbn [In] in Hin;
      try (split; [reflexivity | apply stop_stores_clear]);
      exfalso; intuition discriminate.
Qed.

(** C2. [is_playing] is [True] exactly when [player_state] is
    ["playing"]: in the initial dictionary, after one more message
    whenever it held before, and so after every sequence of messages. *)
Theorem C2_playing_flag_invariant client userdata :
  playing_flag_consistent metadata /\
  (forall msg d,
     playing_flag_consistent d ->
     playing_flag_consistent (after (on_message client userdata msg d))) /\
  (forall msgs,
     playing_flag_consistent (state_after client userdata msgs)).
Proof.
  assert (H0 : playing_flag_consistent metadata).
  { exists false, (py "stopped"). repeat split; try discriminate. }
  assert (Hstep : forall msg d,
     playing_flag_consistent d ->
     playing_flag_consistent (after (on_message client userdata msg d))).
  { intros msg d (b & s & Hb & Hs & Hiff).
    on_path client userdata msg d; run_stores;
      try (exists b, s; split; [|split]; [by simplify_map_eq .. | exact Hiff]).
    - exists true, (py "playing"). split; [|split]; [by simplify_map_eq ..|].
      split; reflexivity.
    - exists true, (py "playing"). split; [|split]; [by simplify_map_eq ..|].
      split; reflexivity.
    - exists false, (py "stopped"). split; [|split]; [by simplify_map_eq ..|].
      split; discriminate.
    - exists false, (py "stopped"). split; [|split]; [by simplify_map_eq ..|].
      split; discriminate.
    - exists false, (py "stopped"). split; [|split]; [by simplify_map_eq ..|].
      split; discriminate.
    - exists false, (py "paused"). split; [|split]; [by simplify_map_eq ..|].
      split; discriminate. }
  split; [exact H0|]. split; [exact Hstep|].
  intros msgs. induction msgs as [|msg msgs IH] using rev_ind.
  - exact H0.
  - rewrite state_after_snoc. apply Hstep, IH.
Qed.

Lemma reachable_deliver client userdata msgs d msg rest :
  reachable client userdata msgs (Config d [] (msg :: rest)) ->
  reachable client userdata msgs
    (Config d (stores (on_message client userdata msg d)) rest).
Proof.
  intros H. eapply rtc_r; [exact H|].
  pose proof (step_deliver client userdata d msg rest) as S.
  cbv zeta in S. rewrite on_message_returns in S. exact S.
Qed.

Lemma reachable_store client userdata msgs d kv ws rest :
  reachable client userdata msgs (Config d (kv :: ws) rest) ->
  reachable client userdata msgs (Config (setitem_op d kv) ws rest).
Proof. intros H. eapply rtc_r; [exact H|]. apply step_store. Qed.






Lemma table_lookup_none rt tbl :
  (forall k, In k (List.map fst tbl) -> rt <> py k) ->
  table_lookup rt tbl = None.
Proof.
  induction tbl as [|[k fields] tbl IH]; intros H; [reflexivity|].
  cbn [table_lookup].
  destruct (pyeq rt (py k)) eqn:E.
  - apply pyeq_eq in E. exfalso. apply (H k); [left; reflexivity | exact E].
  - apply IH. intros k' Hk'. apply H. right. exact Hk'.
Qed.

(** The keys a callback assigns are among the fields the table lists
    for its relative topic, and a topic outside the table assigns none. *)
Lemma effect_within_table rt p ws :
  effect rt p ws ->
  match action_fields rt with
  | Some fields => forall k, In k (List.map fst ws) -> In k fields
  | None => ws = []
  end.
Proof.
  intros He. destruct He; open_topics; try subst rt;
    try (vm_compute; tauto).
  unfold action_fields. rewrite table_lookup_none by assumption. reflexivity.
Qed.

(** C4. A field that the action table does not list for the relative
    topic of a message keeps its value; a message whose relative topic is
    not in the table leaves the whole dictionary as it was; and a title
    set by one message is still there after a volume message. *)
Theorem C4_untouched_fields_preserved client userdata msg d :
  (forall fields k,
     action_fields (relative_of userdata msg) = Some fields ->
     ~ In k fields ->
     after (on_message client userdata msg d) !! k = d !! k) /\
  (action_fields (relative_of userdata msg) = None ->
   after (on_message client userdata msg d) = d) /\
  (forall s msg2,
     relative_of userdata msg = py "title" ->
     utf8_decode msg.(payload) = Some s ->
     relative_of userdata msg2 = py "volume" ->
     after (on_message client userdata msg2
              (after (on_message client userdata msg d))) !! "title"
     = Some (VStr s)).
Proof.
  pose proof (on_message_effect client userdata msg d) as (He & _ & Ha).
  pose proof (effect_within_table _ _ _ He) as Ht.
  split; [|split].
  - intros fields k Hf Hk. rewrite Hf in Ht.
    rewrite Ha. apply store_all_frame. intros Hin. apply Hk, Ht, Hin.
  - intros Hf. rewrite Hf in Ht. rewrite Ha, Ht. reflexivity.
  - intros s msg2 Hrt Hs Hrt2.
    rewrite (on_message_run client userdata msg d [("title", VStr s)])
      by (eapply eff_text; [simpl; tauto | exact Hrt | exact Hs]).
    cbn [after].
    pose proof (on_message_effect client userdata msg2
                  (store_all [("title", VStr s)] d)) as (He2 & _ & Ha2).
    pose proof (effect_within_table _ _ _ He2) as Ht2.
    rewrite Hrt2 in Ht2. rewrite Ha2, store_all_frame.
    + run_stores. apply lookup_insert_eq.
    + intros Hin. apply Ht2 in Hin. vm_compute in Hin.
      destruct Hin as [Hin|[]]. discriminate Hin.
Qed.

(** C5. The callback never raises. A malformed message (a text topic
    whose payload is not UTF-8, a volume whose payload is not UTF-8 or is
    not accepted by [float]) executes no item assignment, so it leaves
    the dictionary, and in particular [volume], as it was; and the
    messages that follow are handled as if it had never arrived. *)
Theorem C5_malformed_message_contained client userdata msg :
  (forall d, result (on_message client userdata msg d) = Ret tt) /\
  (malformed userdata msg ->
   (forall d, on_message client userdata msg d = Outcome (Ret tt) d []) /\
   (forall d, after (on_message client userdata msg d) !! "volume"
              = d !! "volume") /\
   (forall before rest,
      state_after client userdata (before ++ msg :: rest) =
      state_after client userdata (before ++ rest))).
Proof.
  split; [intros d; apply on_message_returns|].
  intros Hbad.
  assert (Hrun : forall d,
    on_message client userdata msg d = Outcome (Ret tt) d []).
  { intros d. apply (on_message_run client userdata msg d []).
    destruct Hbad as [(k & Hk & Hrt & Hu)|(Hrt & [Hu|(s & Hu & Hf)])].
    - eapply eff_text_undecodable; eassumption.
    - apply eff_volume_undecodable; assumption.
    - eapply eff_volume_unparsable; eassumption. }
  split; [exact Hrun|]. split.
  - intros d. rewrite Hrun. reflexivity.
  - intros before rest. unfold state_after.
    rewrite !loop_forever_app, loop_forever_cons, Hrun. reflexivity.
Qed.

Lemma startswith_app (s p : pystr) :
  startswith s p = true <-> exists t, s = p ++ t.
Proof.
  revert s. induction p as [|c p IH]; intros s; cbn [startswith].
  - split; [intros _; exists s; reflexivity | reflexivity].
  - destruct s as [|d s].
    + split; [discriminate | intros (t & Ht); discriminate Ht].
    + rewrite andb_true_iff, N.eqb_eq, IH. split.
      * intros (-> & t & ->). exists t. reflexivity.
      * intros (t & Ht). injection Ht as -> ->. eauto.
Qed.

(** C6. When the topic starts with the prefix, the relative topic is the
    topic without the prefix and the one character that follows it, the
    separator (nothing is left when the topic is the prefix alone); in
    particular [prefix/rest] gives [rest]. When the topic does not start
    with the prefix, the relative topic is the topic itself. *)
Theorem C6_relative_topic (topic0 prefix : pystr) :
  (startswith topic0 prefix = true ->
   relative_topic topic0 prefix = drop (length prefix + 1) topic0 /\
   exists sep,
     topic0 = prefix ++ sep ++ relative_topic topic0 prefix /\
     (length sep <= 1)%nat /\
     (sep = [] -> relative_topic topic0 prefix = [])) /\
  (forall rest,
     topic0 = prefix ++ py "/" ++ rest ->
     relative_topic topic0 prefix = rest) /\
  (startswith topic0 prefix = false ->
   relative_topic topic0 prefix = topic0).
Proof.
  unfold relative_topic, slice_from. split; [|split].
  - intros H. rewrite H. split; [reflexivity|].
    apply startswith_app in H as (t & ->).
    rewrite drop_app_add'; [|reflexivity].
    destruct t as [|c t].
    + exists []. simpl. rewrite app_nil_r. auto.
    + exists [c]. simpl. split; [reflexivity|]. split; [lia | discriminate].
  - intros rest ->.
    assert (H : startswith (prefix ++ py "/" ++ rest) prefix = true)
      by (apply startswith_app; eauto).
    rewrite H. rewrite drop_app_add'; reflexivity.
  - intros H. rewrite H. reflexivity.
Qed.

(** C7. Handling the same [pause] message twice in a row leaves the
    dictionary that handling it once leaves. *)
Theorem C7_pause_idempotent client userdata msg d :
  relative_of userdata msg = py "pause" ->
  after (on_message client userdata msg
           (after (on_message client userdata msg d))) =
  after (on_message client userdata msg d) /\
  after (loop_forever client userdata [msg; msg] d) =
  after (loop_forever client userdata [msg] d).
Proof.
  intros Hrt.
  assert (Hrun : forall d', on_message client userdata msg d' =
    Outcome (Ret tt)
      (store_all [("is_playing", VBool false);
                  ("player_state", VStr (py "paused"))] d')
      [("is_playing", VBool false); ("player_state", VStr (py "paused"))]).
  { intros d'. apply on_message_run, eff_pause, Hrt. }
  assert (Hidem : after (on_message client userdata msg
                     (after (on_message client userdata msg d))) =
                  after (on_message client userdata msg d)).
  { rewrite !Hrun. cbn [after]. run_stores.
    apply map_eq. intros k.
    destruct (decide (k = "player_state")) as [->|];
      [by simplify_map_eq|].
    destruct (decide (k = "is_playing")) as [->|]; by simplify_map_eq. }
  split; [exact Hidem|].
  rewrite !loop_forever_cons. cbn [loop_forever ret after]. exact Hidem.
Qed.

(** ** Typing of the dictionary *)

Lemma item_ok_key k v : item_ok k v -> k ∈ metadata_keys.
Proof.
  unfold item_ok, metadata_keys.
  intros [(Hk & _)|[(-> & _)|[(-> & _)|[(-> & _)|(-> & _)]]]];
    [|set_solver..].
  simpl in Hk. repeat (destruct Hk as [<-|Hk]; [set_solver|]). destruct Hk.
Qed.

Lemma effect_items_ok rt p ws :
  effect rt p ws -> Forall (fun kv => item_ok kv.1 kv.2) ws.
Proof.
  intros He. destruct He; open_topics; unfold stop_stores;
    repeat (apply List.Forall_cons; cbn [fst snd]);
    try apply List.Forall_nil; unfold item_ok;
    try (left; split; [simpl; tauto | eauto]; fail);
    try (right; left; split; [reflexivity | eauto]; fail);
    try (right; right; left; split; [reflexivity | eauto]; fail);
    try (right; right; right; left; split; [reflexivity | tauto]; fail);
    try (right; right; right; right; split; [reflexivity | eauto]; fail).
Qed.

Lemma well_typed_metadata : well_typed metadata.
Proof.
  split; [reflexivity|].
  intros k v H. unfold metadata in H. cbn [list_to_map foldr] in H.
  unfold item_ok.
  repeat (apply lookup_insert_Some in H as [(<- & <-)|(_ & H)];
          [cbn; eauto 10|]).
  rewrite lookup_empty in H. discriminate H.
Qed.

Lemma well_typed_store d kv :
  well_typed d -> item_ok kv.1 kv.2 -> well_typed (setitem_op d kv).
Proof.
  intros (Hdom & Hty) Hok. unfold setitem_op. split.
  - rewrite dom_insert_L, Hdom. apply subseteq_union_1_L.
    apply singleton_subseteq_l. eapply item_ok_key, Hok.
  - intros k v H. apply lookup_insert_Some in H as [(<- & <-)|(_ & H)];
      [exact Hok | apply Hty, H].
Qed.

Lemma well_typed_store_all ws d :
  well_typed d -> Forall (fun kv => item_ok kv.1 kv.2) ws ->
  well_typed (store_all ws d).
Proof.
  intros Hd Hws. revert d Hd.
  induction Hws as [|kv ws Hkv _ IH]; intros d Hd; [exact Hd|].
  cbn [store_all foldl]. apply IH, well_typed_store; assumption.
Qed.

Lemma well_typed_state_after client userdata msgs :
  well_typed (state_after client userdata msgs).
Proof.
  induction msgs as [|msg msgs IH] using rev_ind.
  - apply well_typed_metadata.
  - rewrite state_after_snoc, on_message_after.
    apply well_typed_store_all; [exact IH|].
    eapply effect_items_ok, on_message_effect.
Qed.

Lemma well_typed_reachable client userdata msgs c :
  reachable client userdata msgs c ->
  well_typed (cur c) /\ Forall (fun kv => item_ok kv.1 kv.2) (pending c).
Proof.
  unfold reachable. revert c.
  apply (rtc_ind_r
    (fun c => well_typed (cur c) /\
              Forall (fun kv => item_ok kv.1 kv.2) (pending c))
    (start msgs)).
  - split; [apply well_typed_metadata | apply List.Forall_nil].
  - intros c1 c2 _ Hstep (Hd & Hp).
    destruct Hstep as [d msg rest o|d kv ws rest]; cbn [cur pending] in *.
    + split; [exact Hd|]. eapply effect_items_ok, on_message_effect.
    + inversion Hp as [|? ? Hkv Hws]; subst.
      split; [apply well_typed_store; assumption | exact Hws].
Qed.

Lemma well_typed_field d k :
  well_typed d -> k ∈ metadata_keys ->
  exists v, d !! k = Some v /\ item_ok k v.
Proof.
  intros (Hdom & Hty) Hk. rewrite <- Hdom in Hk.
  apply elem_of_dom in Hk as (v & Hv). eauto.
Qed.

Ltac field_of d k :=
  let v := fresh "v" in
  let Hv := fresh "Hv" in
  let Hok := fresh "Hok" in
  destruct (well_typed_field d k) as (v & Hv & Hok);
  [assumption | unfold metadata_keys; set_solver |];
  destruct Hok as [(Hk & Hok)|[(Hk & Hok)|[(Hk & Hok)|[(Hk & Hok)|(Hk & Hok)]]]];
  try discriminate Hk;
  try (exfalso; simpl in Hk; intuition discriminate).

Lemma well_typed_text d k :
  well_typed d ->
  In k ["title"; "artist"; "album"; "genre"; "client_name"] ->
  exists s, d !! k = Some (VStr s).
Proof.
  intros Hd Hk.
  destruct (well_typed_field d k Hd) as (v & Hv & Hok).
  { apply (item_ok_key k (VStr [])). left. split; [exact Hk|]. eauto. }
  destruct Hok as [(_ & s & ->)|[(-> & _)|[(-> & _)|[(-> & _)|(-> & _)]]]];
    [eauto | exfalso; simpl in Hk; intuition discriminate ..].
Qed.

Lemma well_typed_flag d :
  well_typed d -> exists b, d !! "is_playing" = Some (VBool b).
Proof.
  intros Hd. field_of d "is_playing". destruct Hok as (b & ->). eauto.
Qed.





(** C9. A [cover] or [artwork] message with a non-empty payload stores
    under [artwork_base64] the text of the base64 encoding of the
    payload, and decoding that text from base64 gives the payload
    back. *)
Theorem C9_artwork_roundtrip client userdata msg d :
  relative_of userdata msg = py "cover" \/
  relative_of userdata msg = py "artwork" ->
  msg.(payload) <> [] ->
  exists s,
    after (on_message client userdata msg d) !! "artwork_base64"
      = Some (VStr s) /\
    decode_utf8 (b64encode msg.(payload)) = Ret s /\
    b64decode s = Some msg.(payload).
Proof.
  intros Hrt Hp.
  exists (List.map Byte.to_N (b64encode msg.(payload))).
  rewrite (on_message_run client userdata msg d
             [("artwork_base64",
               VStr (List.map Byte.to_N (b64encode msg.(payload))))])
    by (apply eff_artwork; assumption).
  split; [|split].
  - run_stores. cbn [after]. apply lookup_insert_eq.
  - apply decode_b64encode.
  - apply b64_roundtrip.
Qed.

Lemma on_message_ext client1 client2 userdata1 userdata2 msg1 msg2 d :
  userdata1 !! "topic_prefix" = userdata2 !! "topic_prefix" ->
  msg1.(topic) = msg2.(topic) ->
  msg1.(payload) = msg2.(payload) ->
  on_message client1 userdata1 msg1 d = on_message client2 userdata2 msg2 d.
Proof.
  intros Hu Ht Hp. unfold on_message, dict_get. rewrite Hu, Ht, Hp.
  reflexivity.
Qed.

(** C10. The outcome of the delivery loop from the initial dictionary
    is determined by the topic prefix and by the topics and payloads of
    the messages, in order: two runs that agree on these end in the same
    dictionary, whatever the client objects, the other entries of
    [userdata] and the other attributes of the messages (QoS, retain
    flag, message id, duplicate flag, timestamp) are. *)
Theorem C10_state_depends_on_events_only
    client1 client2 userdata1 userdata2 msgs1 msgs2 :
  userdata1 !! "topic_prefix" = userdata2 !! "topic_prefix" ->
  List.map (fun m => (m.(topic), m.(payload))) msgs1 =
  List.map (fun m => (m.(topic), m.(payload))) msgs2 ->
  loop_forever client1 userdata1 msgs1 metadata =
  loop_forever client2 userdata2 msgs2 metadata /\
  state_after client1 userdata1 msgs1 = state_after client2 userdata2 msgs2.
Proof.
  intros Hu Hm.
  assert (H : forall d,
    loop_forever client1 userdata1 msgs1 d =
    loop_forever client2 userdata2 msgs2 d).
  { revert msgs2 Hm.
    induction msgs1 as [|m1 ms1 IH]; intros [|m2 ms2] Hm d;
      try discriminate Hm; [reflexivity|].
    cbn [List.map] in Hm. injection Hm as Ht Hp Hrest.
    rewrite !loop_forever_cons.
    rewrite (on_message_ext client1 client2 userdata1 userdata2 m1 m2 d Hu Ht Hp).
    rewrite (IH ms2 Hrest). reflexivity. }
  split; [apply H|]. unfold state_after. rewrite H. reflexivity.
Qed.


(** ** Further properties of the callback *)

Lemma store_all_agree ws d1 d2 k :
  d1 !! k = d2 !! k -> store_all ws d1 !! k = store_all ws d2 !! k.
Proof.
  revert d1 d2. induction ws as [|[k' v] ws IH]; intros d1 d2 H; [exact H|].
  cbn [store_all foldl]. apply IH. unfold setitem_op. cbn [fst snd].
  destruct (decide (k' = k)) as [->|Hne].
  - rewrite !lookup_insert_eq. reflexivity.
  - rewrite !lookup_insert_ne by exact Hne. exact H.
Qed.

Lemma stores_independent client userdata msg d1 d2 :
  stores (on_message client userdata msg d1) =
  stores (on_message client userdata msg d2).
Proof.
  destruct (on_message_effect client userdata msg d1) as (H1 & _).
  destruct (on_message_effect client userdata msg d2) as (H2 & _).
  exact (effect_functional _ _ _ _ H1 H2).
Qed.

(** X1. What the callback does to the dictionary does not depend on
    what the dictionary holds: the item assignments it executes are the
    same from any two dictionaries, and the value a key has after the
    callback depends only on the message and on the value the key had
    before. (The source reads [metadata] only to format a log line, from
    the key it has just assigned.) *)
Theorem on_message_field_local client userdata msg d1 d2 k :
  d1 !! k = d2 !! k ->
  stores (on_message client userdata msg d1) =
  stores (on_message client userdata msg d2) /\
  after (on_message client userdata msg d1) !! k =
  after (on_message client userdata msg d2) !! k.
Proof.
  intros H. split; [apply stores_independent|].
  rewrite !on_message_after, (stores_independent client userdata msg d1 d2).
  apply store_all_agree, H.
Qed.

Lemma loop_forever_agree client userdata msgs d1 d2 k :
  d1 !! k = d2 !! k ->
  after (loop_forever client userdata msgs d1) !! k =
  after (loop_forever client userdata msgs d2) !! k.
Proof.
  revert d1 d2. induction msgs as [|m ms IH]; intros d1 d2 H; [exact H|].
  rewrite !loop_forever_cons. cbn [after]. apply IH.
  rewrite !on_message_after, (stores_independent client userdata m d1 d2).
  apply store_all_agree, H.
Qed.

Lemma state_after_app client userdata msgs1 msgs2 :
  state_after client userdata (msgs1 ++ msgs2) =
  after (loop_forever client userdata msgs2 (state_after client userdata msgs1)).
Proof. unfold state_after. rewrite loop_forever_app. reflexivity. Qed.

(** X2. A stop is as good as a restart for the track fields: once a
    [play_end], [play_flush] or [active_end] has been handled, the six
    fields it assigns have, after any further messages, the values they
    would have if the server had started just after the stop. *)
Theorem stop_forgets_track client userdata before msg later k :
  relative_of userdata msg = py "play_end" \/
  relative_of userdata msg = py "play_flush" \/
  relative_of userdata msg = py "active_end" ->
  In k stop_fields ->
  state_after client userdata (before ++ msg :: later) !! k =
  state_after client userdata later !! k.
Proof.
  intros Hrt Hk.
  change (before ++ msg :: later) with (before ++ [msg] ++ later).
  rewrite app_assoc, state_after_app. unfold state_after at 2.
  apply loop_forever_agree.
  rewrite state_after_snoc.
  rewrite (on_message_run client userdata msg _ stop_stores)
    by (apply eff_stop, Hrt).
  cbn [after].
  destruct (stop_stores_clear (state_after client userdata before))
    as (H1 & H2 & H3 & H4 & H5 & H6).
  simpl in Hk.
  destruct Hk as [<-|[<-|[<-|[<-|[<-|[<-|[]]]]]]]; by etrans.
Qed.

Lemma loop_forever_untouched client userdata msgs d k :
  Forall (fun m => ~ In k (assigned client userdata m)) msgs ->
  after (loop_forever client userdata msgs d) !! k = d !! k.
Proof.
  intros H. revert d. induction H as [|m ms Hm _ IH]; intros d; [reflexivity|].
  rewrite loop_forever_cons. cbn [after]. rewrite IH, on_message_after.
  apply store_all_frame. unfold assigned in Hm.
  rewrite (stores_independent client userdata m d metadata). exact Hm.
Qed.

(** X3. The last assignment wins: if a message assigns a key and none of
    the messages that follow does, the value of the key at the end is the
    one that message gives it, whatever was handled before. *)
Theorem last_assignment_wins client userdata before msg later k d :
  In k (assigned client userdata msg) ->
  Forall (fun m => ~ In k (assigned client userdata m)) later ->
  state_after client userdata (before ++ msg :: later) !! k =
  after (on_message client userdata msg d) !! k.
Proof.
  intros Hk Hlater.
  change (before ++ msg :: later) with (before ++ [msg] ++ later).
  rewrite app_assoc, state_after_app, loop_forever_untouched by exact Hlater.
  rewrite state_after_snoc, !on_message_after.
  rewrite (stores_independent client userdata msg _ metadata).
  rewrite (stores_independent client userdata msg d metadata).
  unfold assigned in Hk. clear Hlater.
  generalize dependent (stores (on_message client userdata msg metadata)).
  intros ws Hk. revert d. generalize (state_after client userdata before).
  induction ws as [|[k' v] ws IH]; intros d1 d2; [destruct Hk|].
  cbn [store_all foldl].
  destruct (in_dec string_dec k (List.map fst ws)) as [Hin|Hout].
  - apply IH, Hin.
  - destruct Hk as [Hk|Hk]; [|contradiction].
    cbn [fst] in Hk. subst k'.
    fold (store_all ws (setitem_op d1 (k, v))).
    fold (store_all ws (setitem_op d2 (k, v))).
    rewrite !store_all_frame by exact Hout.
    unfold setitem_op. cbn [fst snd]. rewrite !lookup_insert_eq. reflexivity.
Qed.


Lemma b64encode_nonempty (p : bytes) : p <> [] -> b64encode p <> [].
Proof.
  destruct p as [|a r]; [congruence|]. intros _.
  destruct (b64encode_cons a r) as (c & t & ->). discriminate.
Qed.

Lemma artwork_field_reachable client userdata msgs c :
  reachable client userdata msgs c ->
  cur c !! "artwork_base64" = Some VNone \/
  (exists p,
     p <> [] /\
     cur c !! "artwork_base64"
     = Some (VStr (List.map Byte.to_N (b64encode p)))).
Proof.
  intros Hc. apply well_typed_reachable in Hc as (Hd & _).
  destruct (well_typed_field (cur c) "artwork_base64" Hd) as (v & Hv & Hok).
  { unfold metadata_keys. rewrite !elem_of_union, !elem_of_singleton. tauto. }
  destruct Hok as [(Hk & _)|[(_ & Hok)|[(Hk & _)|[(Hk & _)|(Hk & _)]]]];
    try discriminate Hk;
    try (exfalso; simpl in Hk; intuition discriminate).
  destruct Hok as [->|(p & Hp & ->)]; [left; exact Hv|].
  right. exists p. auto.
Qed.

(** X4. In every configuration the two threads can reach, also between
    two item assignments of a callback, [artwork_base64] is [None] or a
    non-empty text whose base64 decoding succeeds and gives a non-empty
    byte string; [/metadata] shows the same text. *)
Theorem artwork_always_decodable client userdata msgs c :
  reachable client userdata msgs c ->
  (cur c !! "artwork_base64" = Some VNone /\
   (read c).2 !! "artwork_base64" = Some JNull) \/
  (exists s p,
     cur c !! "artwork_base64" = Some (VStr s) /\
     (read c).2 !! "artwork_base64" = Some (JString s) /\
     s <> [] /\ p <> [] /\ b64decode s = Some p).
Proof.
  intros Hc. unfold read, get_metadata, jsonify. cbn [snd].
  rewrite lookup_fmap.
  destruct (artwork_field_reachable client userdata msgs c Hc)
    as [E|(p & Hp & E)]; rewrite E.
  - left. split; reflexivity.
  - right. exists (List.map Byte.to_N (b64encode p)), p.
    split; [reflexivity|]. split; [reflexivity|]. split; [|split].
    + intros H. apply map_eq_nil in H. exact (b64encode_nonempty p Hp H).
    + exact Hp.
    + apply b64_roundtrip.
Qed.

(** X5. The three stop topics are interchangeable and their payload is
    ignored: two messages with relative topic [play_end], [play_flush]
    or [active_end] have the same outcome on every dictionary, and
    handling the second after the first changes nothing more. *)
Theorem stop_topics_interchangeable client userdata msg1 msg2 d :
  relative_of userdata msg1 = py "play_end" \/
  relative_of userdata msg1 = py "play_flush" \/
  relative_of userdata msg1 = py "active_end" ->
  relative_of userdata msg2 = py "play_end" \/
  relative_of userdata msg2 = py "play_flush" \/
  relative_of userdata msg2 = py "active_end" ->
  on_message client userdata msg1 d = on_message client userdata msg2 d /\
  after (on_message client userdata msg2
           (after (on_message client userdata msg1 d))) =
  after (on_message client userdata msg1 d).
Proof.
  intros H1 H2.
  assert (R1 : forall d', on_message client userdata msg1 d' =
            Outcome (Ret tt) (store_all stop_stores d') stop_stores)
    by (intros d'; apply on_message_run, eff_stop, H1).
  assert (R2 : forall d', on_message client userdata msg2 d' =
            Outcome (Ret tt) (store_all stop_stores d') stop_stores)
    by (intros d'; apply on_message_run, eff_stop, H2).
  split; [by rewrite R1, R2|].
  rewrite R2, R1. cbn [after]. apply map_eq. intros k.
  destruct (in_dec string_dec k (List.map fst stop_stores)) as [Hin|Hout].
  - destruct (stop_stores_clear (store_all stop_stores d))
      as (A1 & A2 & A3 & A4 & A5 & A6).
    destruct (stop_stores_clear d) as (B1 & B2 & B3 & B4 & B5 & B6).
    simpl in Hin.
    destruct Hin as [<-|[<-|[<-|[<-|[<-|[<-|[]]]]]]]; by etrans.
  - rewrite store_all_frame by exact Hout. reflexivity.
Qed.

(** X6. Pause and resume are a round trip: from a dictionary in which
    playback is on, a [pause] followed by a [play_start] or [play_resume]
    gives the dictionary back, and in between only [is_playing] and
    [player_state] differ from it. *)
Theorem pause_resume_roundtrip client userdata pause_msg resume_msg d :
  relative_of userdata pause_msg = py "pause" ->
  relative_of userdata resume_msg = py "play_start" \/
  relative_of userdata resume_msg = py "play_resume" ->
  d !! "is_playing" = Some (VBool true) ->
  d !! "player_state" = Some (VStr (py "playing")) ->
  after (on_message client userdata resume_msg
           (after (on_message client userdata pause_msg d))) = d /\
  after (on_message client userdata pause_msg d) =
    <["player_state" := VStr (py "paused")]>
      (<["is_playing" := VBool false]> d).
Proof.
  intros Hp Hr Hi Hs.
  rewrite (on_message_run client userdata pause_msg d
             [("is_playing", VBool false);
              ("player_state", VStr (py "paused"))])
    by (apply eff_pause, Hp).
  rewrite (on_message_run client userdata resume_msg _
             [("is_playing", VBool true);
              ("player_state", VStr (py "playing"))])
    by (apply eff_play, Hr).
  cbn [after]. run_stores. split; [|reflexivity].
  apply map_eq. intros k.
  destruct (decide (k = "player_state")) as [->|];
    [by simplify_map_eq|].
  destruct (decide (k = "is_playing")) as [->|]; by simplify_map_eq.
Qed.

Lemma relative_of_prefixed userdata msg rest :
  msg.(topic)
  = dict_get userdata "topic_prefix" (py "shairport-sync") ++ py "/" ++ rest ->
  relative_of userdata msg = rest.
Proof.
  intros Ht. unfold relative_of, relative_topic, slice_from. rewrite Ht.
  assert (H : startswith
                (dict_get userdata "topic_prefix" (py "shairport-sync")
                   ++ py "/" ++ rest)
                (dict_get userdata "topic_prefix" (py "shairport-sync"))
              = true) by (apply startswith_app; eauto).
  rewrite H, drop_app_add'; reflexivity.
Qed.

(** X7. The subscription and the stripping of the prefix agree. With
    return code 0, [on_connect] subscribes to one filter, the prefix of
    [userdata] (["shairport-sync"] when [userdata] has none) followed by
    [/#]; with the same [userdata], [on_message] gives every topic
    [prefix/rest] the relative topic [rest]. With any other return code
    nothing is subscribed. *)
Theorem subscription_matches_stripping userdata rc :
  (rc = 0%Z ->
   exists prefix,
     prefix = dict_get userdata "topic_prefix" (py "shairport-sync") /\
     on_connect userdata rc = [Subscribe (prefix ++ py "/#")] /\
     forall msg rest,
       msg.(topic) = prefix ++ py "/" ++ rest ->
       relative_of userdata msg = rest) /\
  (rc <> 0%Z -> on_connect userdata rc = []).
Proof.
  split.
  - intros ->. eexists. split; [reflexivity|]. split; [reflexivity|].
    intros msg rest. apply relative_of_prefixed.
  - intros H. unfold on_connect. apply Z.eqb_neq in H. rewrite H. reflexivity.
Qed.

End Server.

(** ** The display plugin *)

Section DisplayFacts.

Variable requests_get : pyobj -> http_outcome.
Variable builtin_str : pyobj -> pystr.
Variable Image : Type.
Variable render_image :
  list Z -> pystr -> pystr -> gmap string pyobj -> Image.

Lemma plugin_keys_other (k : string) :
  k <> "title" -> k <> "artist" -> k <> "album" -> k <> "artwork_data" ->
  k <> "is_playing" -> k ∉ plugin_keys.
Proof.
  intros H1 H2 H3 H4 H5. unfold plugin_keys.
  rewrite !elem_of_union, !elem_of_singleton. tauto.
Qed.

Lemma five_lookups (md : gmap string pyobj) t a al aw ip :
  md !! "title" = Some t -> md !! "artist" = Some a ->
  md !! "album" = Some al -> md !! "artwork_data" = Some aw ->
  md !! "is_playing" = Some ip ->
  dom md = plugin_keys ->
  md = list_to_map [("title", t); ("artist", a); ("album", al);
                    ("artwork_data", aw); ("is_playing", ip)].
Proof.
  intros Ht Ha Hal Haw Hip Hdom. apply map_eq. intros k.
  cbn [list_to_map foldr fst snd].
  destruct (decide (k = "title")) as [->|]; [by simplify_map_eq|].
  destruct (decide (k = "artist")) as [->|]; [by simplify_map_eq|].
  destruct (decide (k = "album")) as [->|]; [by simplify_map_eq|].
  destruct (decide (k = "artwork_data")) as [->|]; [by simplify_map_eq|].
  destruct (decide (k = "is_playing")) as [->|]; [by simplify_map_eq|].
  simplify_map_eq. apply not_elem_of_dom. rewrite Hdom.
  by apply plugin_keys_other.
Qed.

Lemma plugin_keys_insert (k : string) (v : pyobj) (md : gmap string pyobj) :
  k ∈ plugin_keys -> dom md = plugin_keys -> dom (<[k := v]> md) = plugin_keys.
Proof.
  intros Hk Hd. rewrite dom_insert_L, Hd. apply subseteq_union_1_L.
  apply singleton_subseteq_l, Hk.
Qed.

(** The result on a 200 response whose body is a JSON object. *)
Lemma get_metadata_of_object settings data :
  requests_get (metadata_url_of settings)
  = GetReturns 200 (JsonReturns (ODict data)) ->
  _get_metadata requests_get builtin_str settings =
  Returns (list_to_map
    [ ("title", dict_get data "title" (default_of settings "title"));
      ("artist", dict_get data "artist" (default_of settings "artist"));
      ("album", dict_get data "album" (default_of settings "album"));
      ("artwork_data", artwork_data_of builtin_str data);
      ("is_playing", dict_get data "is_playing" (OBool false)) ]).
Proof.
  intros H. unfold _get_metadata. fold (metadata_url_of settings). rewrite H.
  cbn [Z.eqb Pos.eqb].
  set (md0 := list_to_map _).
  assert (Ht : md0 !! "title" = Some (default_of settings "title"))
    by reflexivity.
  assert (Ha : md0 !! "artist" = Some (default_of settings "artist"))
    by reflexivity.
  assert (Hal : md0 !! "album" = Some (default_of settings "album"))
    by reflexivity.
  assert (Haw : md0 !! "artwork_data" = Some ONone) by reflexivity.
  assert (Hdom : dom md0 = plugin_keys) by reflexivity.
  clearbody md0.
  cbv [except_request pbind plift pret praise get_or local_get local_set].
  rewrite Ht. cbv beta iota.
  rewrite lookup_insert_ne, Ha by done. cbv beta iota.
  rewrite lookup_insert_ne, lookup_insert_ne, Hal by done. cbv beta iota.
  unfold artwork_data_of.
  assert (Hin : forall k, In k ["title"; "artist"; "album"; "artwork_data";
                                "is_playing"] -> k ∈ plugin_keys).
  { intros k Hk. unfold plugin_keys. simpl in Hk.
    rewrite !elem_of_union, !elem_of_singleton.
    intuition (subst; tauto). }
  destruct (truthy (dict_get data "artwork_base64" ONone));
    [|destruct (truthy (dict_get data "artwork_url" ONone))];
    cbv beta iota; f_equal; apply five_lookups;
    try (by simplify_map_eq);
    repeat (apply plugin_keys_insert; [apply Hin; simpl; tauto|]);
    exact Hdom.
Qed.

Lemma get_metadata_defaults settings :
  requests_get (metadata_url_of settings) = GetRaises RequestException \/
  (exists status_code body,
     requests_get (metadata_url_of settings) = GetReturns status_code body /\
     status_code <> 200%Z) \/
  requests_get (metadata_url_of settings)
  = GetReturns 200 (JsonRaises RequestException) ->
  _get_metadata requests_get builtin_str settings
  = Returns (plugin_defaults settings).
Proof.
  unfold _get_metadata. fold (metadata_url_of settings).
  intros [H|[(s & b & H & Hs)|H]]; rewrite H; [reflexivity| |reflexivity].
  apply Z.eqb_neq in Hs. rewrite Hs. reflexivity.
Qed.

Lemma get_metadata_not_object settings data :
  requests_get (metadata_url_of settings)
  = GetReturns 200 (JsonReturns data) ->
  (forall d, data <> ODict d) ->
  _get_metadata requests_get builtin_str settings = Raises AttributeError.
Proof.
  intros H Hd. unfold _get_metadata. fold (metadata_url_of settings).
  rewrite H. destruct data; try reflexivity. exfalso. exact (Hd _ eq_refl).
Qed.

Lemma get_metadata_reraises settings e :
  e <> RequestException ->
  requests_get (metadata_url_of settings) = GetRaises e \/
  requests_get (metadata_url_of settings) = GetReturns 200 (JsonRaises e) ->
  _get_metadata requests_get builtin_str settings = Raises e.
Proof.
  intros He H. unfold _get_metadata. fold (metadata_url_of settings).
  destruct H as [H|H]; rewrite H; destruct e; try reflexivity;
    exfalso; apply He; reflexivity.
Qed.

Lemma request_exception_or_not (e : plugin_exn) :
  e = RequestException \/ e <> RequestException.
Proof. destruct e; auto; right; discriminate. Qed.

(** One of the four ways the request can end. *)
Lemma request_cases settings :
  let o := requests_get (metadata_url_of settings) in
  (exists e, o = GetRaises e) \/
  (exists s b, o = GetReturns s b /\ s <> 200%Z) \/
  (exists e, o = GetReturns 200 (JsonRaises e)) \/
  (exists data, o = GetReturns 200 (JsonReturns data)).
Proof.
  cbv zeta. destruct (requests_get _) as [e|s b]; [eauto|].
  destruct (decide (s = 200%Z)) as [->|Hs]; [|eauto 6].
  destruct b; eauto 6.
Qed.

Lemma is_object_dec (data : pyobj) :
  (exists d, data = ODict d) \/ (forall d, data <> ODict d).
Proof. destruct data; eauto; right; intros d'; discriminate. Qed.

Lemma get_metadata_keys settings md :
  _get_metadata requests_get builtin_str settings = Returns md ->
  dom md = plugin_keys.
Proof.
  intros H.
  destruct (request_cases settings) as [(e & Ho)|[(s & b & Ho & Hs)|[(e & Ho)|(data & Ho)]]].
  - destruct (request_exception_or_not e) as [->|He].
    + rewrite get_metadata_defaults in H by auto. by injection H as <-.
    + rewrite (get_metadata_reraises settings e) in H by auto. discriminate H.
  - rewrite get_metadata_defaults in H by eauto 6. by injection H as <-.
  - destruct (request_exception_or_not e) as [->|He].
    + rewrite get_metadata_defaults in H by auto. by injection H as <-.
    + rewrite (get_metadata_reraises settings e) in H by auto. discriminate H.
  - destruct (is_object_dec data) as [(d & ->)|Hd].
    + rewrite (get_metadata_of_object settings d Ho) in H.
      injection H as <-. cbn [list_to_map foldr fst snd].
      rewrite !dom_insert_L, dom_empty_L. unfold plugin_keys.
      apply set_eq. intros k.
      rewrite !elem_of_union, !elem_of_singleton, elem_of_empty. tauto.
    + rewrite (get_metadata_not_object settings data Ho Hd) in H.
      discriminate H.
Qed.

(** X8. [_get_metadata] raises exactly when an exception other than a
    [RequestException] comes out of [requests.get] or of
    [response.json()] on a 200 response, which it passes on, or when the
    body of a 200 response is JSON but not an object, where it raises
    [AttributeError]. Nothing else is raised: the lookups in its own
    dictionary never fail. *)
Theorem get_metadata_raises_iff settings e :
  _get_metadata requests_get builtin_str settings = Raises e <->
  e <> RequestException /\
  (requests_get (metadata_url_of settings) = GetRaises e \/
   requests_get (metadata_url_of settings) = GetReturns 200 (JsonRaises e) \/
   (e = AttributeError /\
    exists data,
      requests_get (metadata_url_of settings)
      = GetReturns 200 (JsonReturns data) /\
      forall d, data <> ODict d)).
Proof.
  split.
  - intros H.
    destruct (request_cases settings)
      as [(e' & Ho)|[(s & b & Ho & Hs)|[(e' & Ho)|(data & Ho)]]].
    + destruct (request_exception_or_not e') as [->|He].
      * rewrite get_metadata_defaults in H by auto. discriminate H.
      * rewrite (get_metadata_reraises settings e') in H by auto.
        injection H as <-. auto.
    + rewrite get_metadata_defaults in H by eauto 6. discriminate H.
    + destruct (request_exception_or_not e') as [->|He].
      * rewrite get_metadata_defaults in H by auto. discriminate H.
      * rewrite (get_metadata_reraises settings e') in H by auto.
        injection H as <-. auto.
    + destruct (is_object_dec data) as [(d & ->)|Hd].
      * rewrite (get_metadata_of_object settings d Ho) in H. discriminate H.
      * rewrite (get_metadata_not_object settings data Ho Hd) in H.
        injection H as <-. split; [discriminate|]. right. right. eauto.
  - intros (He & [H|[H|(-> & data & H & Hd)]]).
    + apply get_metadata_reraises; auto.
    + apply get_metadata_reraises; auto.
    + eapply get_metadata_not_object; eauto.
Qed.

(** X9. When the request fails with a [RequestException], when the
    status is not 200, or when the body of a 200 response is not JSON
    ([response.json()] raises a [RequestException]), [_get_metadata]
    returns the defaults: [default_title], [default_artist] and
    [default_album] of the settings, or ["Not Playing"], [""] and [""]
    when the settings lack them, no artwork, and not playing. *)
Theorem get_metadata_falls_back settings :
  requests_get (metadata_url_of settings) = GetRaises RequestException \/
  (exists status_code body,
     requests_get (metadata_url_of settings) = GetReturns status_code body /\
     status_code <> 200%Z) \/
  requests_get (metadata_url_of settings)
  = GetReturns 200 (JsonRaises RequestException) ->
  exists md,
    _get_metadata requests_get builtin_str settings = Returns md /\
    md !! "title"
      = Some (dict_get settings "default_title" (OStr (py "Not Playing"))) /\
    md !! "artist" = Some (dict_get settings "default_artist" (OStr (py ""))) /\
    md !! "album" = Some (dict_get settings "default_album" (OStr (py ""))) /\
    md !! "artwork_data" = Some ONone /\
    md !! "is_playing" = Some (OBool false) /\
    dom md = plugin_keys.
Proof.
  intros H. exists (plugin_defaults settings).
  split; [apply get_metadata_defaults, H|].
  repeat split.
Qed.

(** X10. On a 200 response whose body is a JSON object, [title],
    [artist], [album] and [is_playing] are the values the object has for
    these keys, whatever they are (an empty title stays empty); a key the
    object lacks gets the default of the settings, ["Not Playing"], [""]
    or [False]. *)
Theorem response_fields_win settings data k :
  requests_get (metadata_url_of settings)
  = GetReturns 200 (JsonReturns (ODict data)) ->
  In k ["title"; "artist"; "album"; "is_playing"] ->
  exists md,
    _get_metadata requests_get builtin_str settings = Returns md /\
    (forall v, data !! k = Some v -> md !! k = Some v) /\
    (data !! k = None -> md !! k = Some (default_of settings k)).
Proof.
  intros H Hk. eexists. split; [apply get_metadata_of_object, H|].
  cbn [list_to_map foldr fst snd]. unfold dict_get. simpl in Hk.
  destruct Hk as [<-|[<-|[<-|[<-|[]]]]]; split;
    try (intros v Hv; rewrite Hv); try (intros Hn; rewrite Hn);
    by simplify_map_eq.
Qed.

(** X11. The artwork of a 200 JSON object: a non-empty
    [artwork_base64] string gives the data URL
    [data:image/jpeg;base64,] followed by that string, whatever
    [artwork_url] is; otherwise, when [artwork_base64] is missing or
    falsy, a truthy [artwork_url] is passed on as it is; otherwise there
    is no artwork. *)
Theorem artwork_precedence settings data :
  requests_get (metadata_url_of settings)
  = GetReturns 200 (JsonReturns (ODict data)) ->
  exists md,
    _get_metadata requests_get builtin_str settings = Returns md /\
    (forall c s,
       data !! "artwork_base64" = Some (OStr (c :: s)) ->
       md !! "artwork_data"
       = Some (OStr (py "data:image/jpeg;base64," ++ c :: s))) /\
    (truthy (dict_get data "artwork_base64" ONone) = false ->
     truthy (dict_get data "artwork_url" ONone) = true ->
     md !! "artwork_data" = data !! "artwork_url") /\
    (truthy (dict_get data "artwork_base64" ONone) = false ->
     truthy (dict_get data "artwork_url" ONone) = false ->
     md !! "artwork_data" = Some ONone).
Proof.
  intros H. eexists. split; [apply get_metadata_of_object, H|].
  cbn [list_to_map foldr fst snd].
  rewrite lookup_insert_ne, lookup_insert_ne, lookup_insert_ne,
    lookup_insert_eq by done.
  unfold artwork_data_of, dict_get. split; [|split].
  - intros c s Hb. rewrite Hb. reflexivity.
  - intros Hb Hu. unfold dict_get in Hb, Hu. rewrite Hb, Hu.
    destruct (data !! "artwork_url") as [u|]; [reflexivity|discriminate Hu].
  - intros Hb Hu. unfold dict_get in Hb, Hu. rewrite Hb, Hu. reflexivity.
Qed.

(** X12. [generate_image] raises what [_get_metadata] raises; otherwise
    it renders the two fixed templates with the dictionary that
    [_get_metadata] returned, extended by [plugin_settings], so that its
    own defaults (["Not Playing"], [""], [None], [False]) are never
    used; the dimensions are the resolution of the device, reversed when
    its orientation is ["vertical"]. *)
Theorem generate_image_renders_metadata settings device_config :
  generate_image requests_get builtin_str Image render_image settings
    device_config =
  match _get_metadata requests_get builtin_str settings with
  | Raises e => Raises e
  | Returns md =>
      Returns
        (render_image
           (if eq_str (device_config.(get_config) "orientation") (py "vertical")
            then rev device_config.(get_resolution)
            else device_config.(get_resolution))
           (py "shairport-display.html") (py "shairport-display.css")
           (<["plugin_settings" := ODict settings]> md))
  end.
Proof.
  unfold generate_image.
  destruct (_get_metadata requests_get builtin_str settings) as [md|e] eqn:E;
    [|reflexivity].
  apply get_metadata_keys in E.
  assert (Hk : forall k, k ∈ plugin_keys -> exists v, md !! k = Some v).
  { intros k Hk. rewrite <- E in Hk. apply elem_of_dom in Hk. exact Hk. }
  assert (Hin : forall k, In k ["title"; "artist"; "album"; "artwork_data";
                                "is_playing"] -> k ∈ plugin_keys).
  { intros k Hin. unfold plugin_keys. simpl in Hin.
    rewrite !elem_of_union, !elem_of_singleton.
    intuition (subst; tauto). }
  destruct (Hk "title") as (t & Ht); [apply Hin; simpl; tauto|].
  destruct (Hk "artist") as (a & Ha); [apply Hin; simpl; tauto|].
  destruct (Hk "album") as (al & Hal); [apply Hin; simpl; tauto|].
  destruct (Hk "artwork_data") as (aw & Haw); [apply Hin; simpl; tauto|].
  destruct (Hk "is_playing") as (ip & Hip); [apply Hin; simpl; tauto|].
  do 2 f_equal. unfold dict_get. rewrite Ht, Ha, Hal, Haw, Hip.
  cbn [default list_to_map foldr fst snd].
  rewrite (five_lookups md t a al aw ip Ht Ha Hal Haw Hip E) at 1.
  cbn [list_to_map foldr fst snd].
  apply map_eq. intros k.
  destruct (decide (k = "plugin_settings")) as [->|]; [by simplify_map_eq|].
  destruct (decide (k = "title")) as [->|]; [by simplify_map_eq|].
  destruct (decide (k = "artist")) as [->|]; [by simplify_map_eq|].
  destruct (decide (k = "album")) as [->|]; [by simplify_map_eq|].
  destruct (decide (k = "artwork_data")) as [->|]; [by simplify_map_eq|].
  destruct (decide (k = "is_playing")) as [->|]; by simplify_map_eq.
Qed.

End DisplayFacts.

(** ** Server and plugin together *)

Lemma artwork_url_absent (d : gmap string pyval) :
  dom d = metadata_keys ->
  (obj_of_json <$> (to_json <$> d)) !! "artwork_url" = None.
Proof.
  intros Hd. rewrite !lookup_fmap.
  assert (H : d !! "artwork_url" = None).
  { apply not_elem_of_dom. rewrite Hd. unfold metadata_keys.
    rewrite !elem_of_union, !elem_of_singleton.
    intros H. repeat (destruct H as [H|H]; try discriminate H). }
  rewrite H. reflexivity.
Qed.

(** X13. When the plugin reaches the server, the display follows the
    server and nothing else: for every configuration the server can
    reach, [_get_metadata] returns the [title], [artist] and [album]
    strings and the [is_playing] flag of the dictionary (after a stop
    the title is empty, not ["Not Playing"]), and as artwork the data
    URL of the stored base64 text, or [None] when there is none. The
    defaults of the settings play no part. *)
Theorem display_follows_server
    (Client : Type) (builtin_float : pystr -> option float)
    (client : Client) (userdata : gmap string pystr)
    (msgs : list MQTTMessage) (c : config)
    (requests_get : pyobj -> http_outcome) (builtin_str : pyobj -> pystr)
    (settings : gmap string pyobj) :
  reachable Client builtin_float client userdata msgs c ->
  requests_get (metadata_url_of settings) = received (read c) ->
  exists t a al b,
    cur c !! "title" = Some (VStr t) /\
    cur c !! "artist" = Some (VStr a) /\
    cur c !! "album" = Some (VStr al) /\
    cur c !! "is_playing" = Some (VBool b) /\
    _get_metadata requests_get builtin_str settings =
    Returns (list_to_map
      [ ("title", OStr t); ("artist", OStr a); ("album", OStr al);
        ("artwork_data",
         match cur c !! "artwork_base64" with
         | Some (VStr s) => OStr (py "data:image/jpeg;base64," ++ s)
         | _ => ONone
         end);
        ("is_playing", OBool b) ]).
Proof.
  intros Hc Hget.
  pose proof (artwork_field_reachable Client builtin_float client userdata
                msgs c Hc) as Hart.
  apply well_typed_reachable in Hc as (Hd & _).
  destruct (well_typed_text _ "title" Hd) as (t' & Et); [simpl; tauto|].
  destruct (well_typed_text _ "artist" Hd) as (a' & Ea); [simpl; tauto|].
  destruct (well_typed_text _ "album" Hd) as (al' & Eal); [simpl; tauto|].
  destruct (well_typed_flag _ Hd) as (b' & Eb).
  destruct Hd as (Hdom & _).
  exists t', a', al', b'. repeat (split; [assumption|]).
  unfold received, read, get_metadata, jsonify in Hget. cbn [fst snd] in Hget.
  rewrite (get_metadata_of_object requests_get builtin_str settings _ Hget).
  unfold dict_get, artwork_data_of, dict_get.
  rewrite (artwork_url_absent _ Hdom).
  rewrite !lookup_fmap, Et, Ea, Eal, Eb.
  cbn [fmap option_fmap option_map to_json obj_of_json default].
  destruct Hart as [E|(p & Hp & E)]; rewrite E;
    cbn [fmap option_fmap option_map to_json obj_of_json default truthy
         fstring_of].
  - reflexivity.
  - destruct (List.map Byte.to_N (b64encode p)) eqn:Es; [|reflexivity].
    apply map_eq_nil in Es. destruct (b64encode_nonempty p Hp Es).
Qed.

(** ** Start-up *)

(** X14. A port in the environment that [int] rejects stops [main] with
    [ValueError] while the parser is being built, whatever is on the
    command line, also when the command line gives that port. *)
Theorem main_needs_integer_env_ports builtin_int environ cli name s :
  name = "MQTT_PORT" \/ name = "HTTP_PORT" ->
  environ !! name = Some s ->
  builtin_int s = None ->
  main builtin_int environ cli = StartupValueError.
Proof.
  intros [-> | ->] He Hs; unfold main; rewrite ?He, ?Hs; [reflexivity|].
  destruct (match environ !! "MQTT_PORT" with
            | Some s0 => builtin_int s0
            | None => Some 1883%Z
            end); reflexivity.
Qed.

(** X15. The topic prefix chosen at start-up is the one used everywhere:
    when [main] starts the client thread, the prefix is the one of the
    command line if given, else [TOPIC_PREFIX] of the environment if
    set, else ["shairport-sync"]; with the [userdata] that
    [run_mqtt_client] builds from it, [on_connect] subscribes to
    [prefix/#] and [on_message] gives a topic [prefix/rest] the relative
    topic [rest]. *)
Theorem configured_prefix_used_everywhere
    builtin_int environ cli args connect_raises :
  main builtin_int environ cli = Started args ->
  let prefix :=
    match cli.(cli_topic_prefix) with
    | Some p => p
    | None =>
        match environ !! "TOPIC_PREFIX" with
        | Some p => p
        | None => py "shairport-sync"
        end
    end in
  let userdata :=
    (run_mqtt_client args.(args_mqtt_host) args.(args_mqtt_port)
       args.(args_topic_prefix) args.(args_mqtt_user) args.(args_mqtt_pass)
       connect_raises).1 in
  args.(args_topic_prefix) = prefix /\
  on_connect userdata 0 = [Subscribe (prefix ++ py "/#")] /\
  forall msg rest,
    msg.(topic) = prefix ++ py "/" ++ rest ->
    relative_of userdata msg = rest.
Proof.
  intros H. cbv zeta.
  assert (Hp : args.(args_topic_prefix) =
               match cli.(cli_topic_prefix) with
               | Some p => p
               | None =>
                   match environ !! "TOPIC_PREFIX" with
                   | Some p => p
                   | None => py "shairport-sync"
                   end
               end).
  { unfold main in H.
    repeat match type of H with
    | context [match ?x with _ => _ end] =>
        match x with
        | context [builtin_int] => destruct x; try discriminate H
        | context [Some 1883%Z] => destruct x; try discriminate H
        | context [Some 5000%Z] => destruct x; try discriminate H
        end
    end.
    injection H as <-. cbn [args_topic_prefix]. unfold dict_get.
    destruct (cli_topic_prefix cli); reflexivity. }
  rewrite <- Hp. split; [reflexivity|].
  unfold run_mqtt_client. cbn [fst].
  split; [reflexivity|].
  intros msg rest Ht. apply relative_of_prefixed.
  unfold dict_get. rewrite lookup_singleton_eq. exact Ht.
Qed.

(** X16. Credentials need both parts: [run_mqtt_client] sets a user name
    and password on the client exactly when both are given and neither
    is empty, and it does so before connecting. It connects once, with
    a keep-alive of 60, and enters the delivery loop exactly when
    connecting did not raise. *)
Theorem credentials_need_both host port topic_prefix username password
    connect_raises :
  let calls :=
    (run_mqtt_client host port topic_prefix username password
       connect_raises).2 in
  (forall u p,
     In (UsernamePwSet u p) calls <->
     username = Some u /\ password = Some p /\ u <> [] /\ p <> []) /\
  (given username && given password = true ->
   exists u p, hd_error calls = Some (UsernamePwSet u p)) /\
  (exists before after,
     calls = before ++ Connect host port 60 :: after /\
     forall h q ka, ~ In (Connect h q ka) (before ++ after)) /\
  (In LoopForever calls <-> connect_raises = false).
Proof.
  cbv zeta. unfold run_mqtt_client. cbn [snd].
  destruct username as [[|cu u]|], password as [[|cp p]|], connect_raises;
    cbn [given andb app]; (split; [|split; [|split]]);
    try (intros u0 p0; split;
         [intros Hin; simpl in Hin;
          repeat (destruct Hin as [Hin|Hin]; try discriminate Hin;
                  try (injection Hin as <- <-));
          try contradiction; repeat split; congruence
         |intros (Hu & Hp & Hnu & Hnp); try discriminate Hu;
          try discriminate Hp; try injection Hu as <-; try injection Hp as <-;
          try congruence; simpl; auto]);
    try (intros Hg; try discriminate Hg; eauto);
    try (split; [intros Hin; simpl in Hin;
                 repeat (destruct Hin as [Hin|Hin]; try discriminate Hin);
                 try contradiction; reflexivity
                |intros Hc; try discriminate Hc; simpl; auto]);
    try (first
      [ (exists [], []; split; [reflexivity|]; intros h q ka []; fail)
      | (exists [], [LoopForever]; split; [reflexivity|];
         intros h q ka [Hin|[]]; discriminate Hin)
      | (eexists [_], []; split; [reflexivity|];
         intros h q ka [Hin|[]]; discriminate Hin)
      | (eexists [_], [LoopForever]; split; [reflexivity|];
         intros h q ka [Hin|[Hin|[]]]; discriminate Hin) ]).
Qed.

(** ** The definitions evaluated on concrete inputs *)

Example b64encode_Man :
  b64encode (list_byte_of_string "Man") = list_byte_of_string "TWFu" /\
  b64encode (list_byte_of_string "Ma") = list_byte_of_string "TWE=" /\
  b64encode (list_byte_of_string "M") = list_byte_of_string "TQ==".
Proof. repeat split. Qed.

Example b64decode_padded :
  b64decode (py "TWFuTQ==") = Some (list_byte_of_string "ManM").
Proof. reflexivity. Qed.

Example utf8_decode_samples :
  utf8_decode [xe2; x82; xac] = Some [0x20AC] /\
  utf8_decode [xf0; x9f; x98; x80] = Some [0x1F600] /\
  utf8_decode [xff] = None /\
  utf8_decode [xc0; x80] = None /\
  utf8_decode [xed; xa0; x80] = None /\
  utf8_decode [xe2; x82] = None.
Proof. repeat split. Qed.

Example sample_float_samples :
  sample_float (py "50") = Some (S754_finite false 7036874417766400 (-47)) /\
  sample_float (py "abc") = None /\
  sample_float (py "") = None.
Proof. repeat split. Qed.

(** The first end-to-end scenario of the specification. *)
Example end_to_end_playing :
  let d := state_after unit sample_float tt ∅ song_a_playing in
  d !! "title" = Some (VStr (py "Song A")) /\
  d !! "artist" = Some (VStr (py "Band B")) /\
  d !! "is_playing" = Some (VBool true) /\
  d !! "player_state" = Some (VStr (py "playing")).
Proof. vm_compute. repeat split. Qed.

Example end_to_end_stopped :
  let d := state_after unit sample_float tt ∅
             (song_a_playing ++ [sample_msg "play_end" ""]) in
  d !! "title" = Some (VStr (py "")) /\
  d !! "artist" = Some (VStr (py "")) /\
  d !! "is_playing" = Some (VBool false) /\
  d !! "player_state" = Some (VStr (py "stopped")).
Proof. vm_compute. repeat split. Qed.

(** The second one: an empty cover after a non-empty one. *)
Example end_to_end_cover_cleared :
  state_after unit sample_float tt ∅ [sample_msg "cover" "JPEG"]
    !! "artwork_base64" = Some (VStr (py "SlBFRw==")) /\
  (get_metadata
     (state_after unit sample_float tt ∅
        [sample_msg "cover" "JPEG"; sample_msg "cover" ""])).2
    !! "artwork_base64" = Some JNull.
Proof. vm_compute. repeat split. Qed.

(** ** Witnesses and the counterexample *)

Lemma C1_witness :
  relative_of ∅ (sample_msg "play_end" "") = py "play_end" /\
  stopped_and_cleared
    (state_after unit sample_float tt ∅
       (song_a_playing ++ [sample_msg "play_end" ""])).
Proof.
  split; [reflexivity|].
  destruct (C1_stop_clears_track unit sample_float tt ∅
              (sample_msg "play_end" "")) as [H _].
  apply (proj2 (H (or_introl eq_refl))).
Defined.

Lemma C2_witness :
  playing_flag_consistent metadata /\
  playing_flag_consistent
    (after (on_message unit sample_float tt ∅ (sample_msg "play_start" "")
              metadata)).
Proof.
  pose proof (C2_playing_flag_invariant unit sample_float tt ∅) as (H0 & H & _).
  split; [exact H0 | exact (H (sample_msg "play_start" "") metadata H0)].
Defined.

(** A request can be served between the second and the third item
    assignment of a [play_end] that follows a title. *)
Lemma stale_read_reachable :
  reachable unit sample_float tt ∅
    [sample_msg "title" "Song A"; sample_msg "play_end" ""]
    (Config stopped_before_clearing
       [("title", VStr (py "")); ("artist", VStr (py ""));
        ("album", VStr (py "")); ("artwork_base64", VNone)]
       []).
Proof.
  pose proof (rtc_refl (step unit sample_float tt ∅)
                (start [sample_msg "title" "Song A"; sample_msg "play_end" ""]))
    as H.
  apply (reachable_deliver unit sample_float tt ∅) in H.
  change (stores _) with [("title", VStr (py "Song A"))] in H.
  apply reachable_store in H.
  apply (reachable_deliver unit sample_float tt ∅) in H.
  change (stores _) with stop_stores in H.
  apply reachable_store in H.
  apply reachable_store in H.
  exact H.
Qed.


(** With a lock or without, a title that arrives after [play_end] is
    shown while playback is stopped. *)
Example title_after_stop_is_shown :
  stale_title
    (state_after unit sample_float tt ∅
       [sample_msg "play_end" ""; sample_msg "title" "Song A"]).
Proof.
  split; [reflexivity|].
  exists (py "Song A"). split; [reflexivity | discriminate].
Qed.



Lemma C4_witness :
  action_fields (relative_of ∅ (sample_msg "volume" "50")) = Some ["volume"] /\
  ~ In "title" ["volume"] /\
  after (on_message unit sample_float tt ∅ (sample_msg "volume" "50")
           (<["title" := VStr (py "X")]> metadata)) !! "title"
  = Some (VStr (py "X")).
Proof.
  split; [reflexivity|].
  split; [simpl; intros [H|[]]; discriminate H|].
  destruct (C4_untouched_fields_preserved unit sample_float tt ∅
              (sample_msg "volume" "50") (<["title" := VStr (py "X")]> metadata))
    as [H _].
  rewrite (H ["volume"] "title" eq_refl).
  - reflexivity.
  - simpl. intros [E|[]]. discriminate E.
Defined.

Lemma C5_witness :
  malformed sample_float ∅ (sample_msg "volume" "abc") /\
  malformed sample_float ∅ undecodable_title /\
  state_after unit sample_float tt ∅
    (song_a_playing ++ sample_msg "volume" "abc" :: [sample_msg "volume" "50"])
  = state_after unit sample_float tt ∅
      (song_a_playing ++ [sample_msg "volume" "50"]) /\
  on_message unit sample_float tt ∅ undecodable_title metadata
  = Outcome (Ret tt) metadata [].
Proof.
  assert (Hv : malformed sample_float ∅ (sample_msg "volume" "abc")).
  { right. split; [reflexivity|]. right. exists (py "abc").
    split; reflexivity. }
  assert (Ht : malformed sample_float ∅ undecodable_title).
  { left. exists "title". split; [simpl; tauto|]. split; reflexivity. }
  split; [exact Hv|]. split; [exact Ht|]. split.
  - destruct (C5_malformed_message_contained unit sample_float tt ∅
                (sample_msg "volume" "abc")) as [_ H].
    apply (H Hv).
  - destruct (C5_malformed_message_contained unit sample_float tt ∅
                undecodable_title) as [_ H].
    apply (H Ht).
Defined.

Lemma C6_witness :
  startswith (py "shairport-sync/title") (py "shairport-sync") = true /\
  relative_topic (py "shairport-sync/title") (py "shairport-sync") = py "title" /\
  startswith (py "other/title") (py "shairport-sync") = false /\
  relative_topic (py "other/title") (py "shairport-sync") = py "other/title".
Proof.
  destruct (C6_relative_topic (py "shairport-sync/title") (py "shairport-sync"))
    as (_ & H1 & _).
  destruct (C6_relative_topic (py "other/title") (py "shairport-sync"))
    as (_ & _ & H2).
  split; [reflexivity|]. split; [exact (H1 (py "title") eq_refl)|].
  split; [reflexivity | exact (H2 eq_refl)].
Defined.

Lemma C7_witness :
  relative_of ∅ (sample_msg "pause" "") = py "pause" /\
  after (on_message unit sample_float tt ∅ (sample_msg "pause" "")
           (after (on_message unit sample_float tt ∅ (sample_msg "pause" "")
                     (state_after unit sample_float tt ∅ song_a_playing))))
  = after (on_message unit sample_float tt ∅ (sample_msg "pause" "")
             (state_after unit sample_float tt ∅ song_a_playing)).
Proof.
  assert (Hrt : relative_of ∅ (sample_msg "pause" "") = py "pause")
    by reflexivity.
  split; [exact Hrt|].
  apply (proj1 (C7_pause_idempotent unit sample_float tt ∅
                  (sample_msg "pause" "")
                  (state_after unit sample_float tt ∅ song_a_playing)
                  Hrt)).
Defined.



Lemma C9_witness :
  relative_of ∅ (sample_msg "cover" "JPEG") = py "cover" /\
  (sample_msg "cover" "JPEG").(payload) <> [] /\
  exists s,
    after (on_message unit sample_float tt ∅ (sample_msg "cover" "JPEG")
             metadata) !! "artwork_base64" = Some (VStr s) /\
    decode_utf8 (b64encode (sample_msg "cover" "JPEG").(payload)) = Ret s /\
    b64decode s = Some (list_byte_of_string "JPEG").
Proof.
  assert (Hrt : relative_of ∅ (sample_msg "cover" "JPEG") = py "cover")
    by reflexivity.
  split; [exact Hrt|]. split; [discriminate|].
  apply (C9_artwork_roundtrip unit sample_float tt ∅ (sample_msg "cover" "JPEG")
           metadata (or_introl Hrt)).
  discriminate.
Defined.

Lemma C10_witness :
  (∅ : gmap string pystr) !! "topic_prefix"
  = ({[ "client_id" := py "inkypi" ]} : gmap string pystr) !! "topic_prefix" /\
  List.map (fun m => (m.(topic), m.(payload))) song_a_playing
  = List.map (fun m => (m.(topic), m.(payload)))
      (List.map redelivered song_a_playing) /\
  state_after bool sample_float true ∅ song_a_playing
  = state_after bool sample_float false {[ "client_id" := py "inkypi" ]}
      (List.map redelivered song_a_playing).
Proof.
  assert (Hu : (∅ : gmap string pystr) !! "topic_prefix"
               = ({[ "client_id" := py "inkypi" ]} : gmap string pystr)
                   !! "topic_prefix") by reflexivity.
  assert (Hm : List.map (fun m => (m.(topic), m.(payload))) song_a_playing
               = List.map (fun m => (m.(topic), m.(payload)))
                   (List.map redelivered song_a_playing)) by reflexivity.
  split; [exact Hu|]. split; [exact Hm|].
  apply (C10_state_depends_on_events_only bool sample_float true false ∅
           {[ "client_id" := py "inkypi" ]} song_a_playing
           (List.map redelivered song_a_playing) Hu Hm).
Defined.

(** ** Witnesses of the further properties *)

Lemma on_message_field_local_witness :
  metadata !! "title" = (<["genre" := VStr (py "Jazz")]> metadata) !! "title" /\
  after (on_message unit sample_float tt ∅ (sample_msg "title" "Song A")
           metadata) !! "title"
  = after (on_message unit sample_float tt ∅ (sample_msg "title" "Song A")
             (<["genre" := VStr (py "Jazz")]> metadata)) !! "title".
Proof.
  assert (H : metadata !! "title"
              = (<["genre" := VStr (py "Jazz")]> metadata) !! "title")
    by reflexivity.
  split; [exact H|].
  exact (proj2 (on_message_field_local unit sample_float tt ∅
                  (sample_msg "title" "Song A") _ _ "title" H)).
Defined.

Lemma stop_forgets_track_witness :
  relative_of ∅ (sample_msg "play_end" "") = py "play_end" /\
  In "title" stop_fields /\
  state_after unit sample_float tt ∅
    (song_a_playing ++ sample_msg "play_end" "" :: [sample_msg "genre" "Jazz"])
    !! "title"
  = state_after unit sample_float tt ∅ [sample_msg "genre" "Jazz"] !! "title".
Proof.
  assert (Hrt : relative_of ∅ (sample_msg "play_end" "") = py "play_end")
    by reflexivity.
  assert (Hk : In "title" stop_fields) by (simpl; tauto).
  split; [exact Hrt|]. split; [exact Hk|].
  exact (stop_forgets_track unit sample_float tt ∅ song_a_playing
           (sample_msg "play_end" "") [sample_msg "genre" "Jazz"] "title"
           (or_introl Hrt) Hk).
Defined.

Lemma last_assignment_wins_witness :
  In "artwork_base64"
    (assigned unit sample_float tt ∅ (sample_msg "cover" "JPEG")) /\
  Forall (fun m => ~ In "artwork_base64" (assigned unit sample_float tt ∅ m))
    [sample_msg "title" "Song A"] /\
  state_after unit sample_float tt ∅
    (sample_msg "cover" "PNG" :: sample_msg "cover" "JPEG" ::
     [sample_msg "title" "Song A"]) !! "artwork_base64"
  = after (on_message unit sample_float tt ∅ (sample_msg "cover" "JPEG") ∅)
      !! "artwork_base64".
Proof.
  assert (Hk : In "artwork_base64"
                 (assigned unit sample_float tt ∅ (sample_msg "cover" "JPEG")))
    by (vm_compute; tauto).
  assert (Hl : Forall
                 (fun m => ~ In "artwork_base64"
                               (assigned unit sample_float tt ∅ m))
                 [sample_msg "title" "Song A"]).
  { apply List.Forall_cons; [|apply List.Forall_nil].
    vm_compute. intros [H|[]]. discriminate H. }
  split; [exact Hk|]. split; [exact Hl|].
  exact (last_assignment_wins unit sample_float tt ∅ [sample_msg "cover" "PNG"]
           (sample_msg "cover" "JPEG") [sample_msg "title" "Song A"]
           "artwork_base64" ∅ Hk Hl).
Defined.

Lemma artwork_always_decodable_witness :
  reachable unit sample_float tt ∅
    [sample_msg "title" "Song A"; sample_msg "play_end" ""]
    (Config stopped_before_clearing
       [("title", VStr (py "")); ("artist", VStr (py ""));
        ("album", VStr (py "")); ("artwork_base64", VNone)]
       []) /\
  ((stopped_before_clearing !! "artwork_base64" = Some VNone /\
    (get_metadata stopped_before_clearing).2 !! "artwork_base64" = Some JNull) \/
   (exists s p,
      stopped_before_clearing !! "artwork_base64" = Some (VStr s) /\
      (get_metadata stopped_before_clearing).2 !! "artwork_base64"
      = Some (JString s) /\
      s <> [] /\ p <> [] /\ b64decode s = Some p)).
Proof.
  split; [exact stale_read_reachable|].
  exact (artwork_always_decodable unit sample_float tt ∅ _ _
           stale_read_reachable).
Defined.

Lemma stop_topics_interchangeable_witness :
  relative_of ∅ (sample_msg "play_end" "") = py "play_end" /\
  relative_of ∅ (sample_msg "active_end" "bye") = py "active_end" /\
  on_message unit sample_float tt ∅ (sample_msg "play_end" "")
    (state_after unit sample_float tt ∅ song_a_playing)
  = on_message unit sample_float tt ∅ (sample_msg "active_end" "bye")
      (state_after unit sample_float tt ∅ song_a_playing).
Proof.
  assert (H1 : relative_of ∅ (sample_msg "play_end" "") = py "play_end")
    by reflexivity.
  assert (H2 : relative_of ∅ (sample_msg "active_end" "bye") = py "active_end")
    by reflexivity.
  split; [exact H1|]. split; [exact H2|].
  exact (proj1 (stop_topics_interchangeable unit sample_float tt ∅
                  (sample_msg "play_end" "") (sample_msg "active_end" "bye")
                  (state_after unit sample_float tt ∅ song_a_playing)
                  (or_introl H1) (or_intror (or_intror H2)))).
Defined.

Lemma pause_resume_roundtrip_witness :
  relative_of ∅ (sample_msg "pause" "") = py "pause" /\
  relative_of ∅ (sample_msg "play_resume" "") = py "play_resume" /\
  state_after unit sample_float tt ∅ song_a_playing !! "is_playing"
  = Some (VBool true) /\
  state_after unit sample_float tt ∅ song_a_playing !! "player_state"
  = Some (VStr (py "playing")) /\
  after (on_message unit sample_float tt ∅ (sample_msg "play_resume" "")
           (after (on_message unit sample_float tt ∅ (sample_msg "pause" "")
                     (state_after unit sample_float tt ∅ song_a_playing))))
  = state_after unit sample_float tt ∅ song_a_playing.
Proof.
  assert (H1 : relative_of ∅ (sample_msg "pause" "") = py "pause")
    by reflexivity.
  assert (H2 : relative_of ∅ (sample_msg "play_resume" "") = py "play_resume")
    by reflexivity.
  assert (H3 : state_after unit sample_float tt ∅ song_a_playing
                 !! "is_playing" = Some (VBool true)) by reflexivity.
  assert (H4 : state_after unit sample_float tt ∅ song_a_playing
                 !! "player_state" = Some (VStr (py "playing")))
    by reflexivity.
  repeat (split; [assumption|]).
  exact (proj1 (pause_resume_roundtrip unit sample_float tt ∅
                  (sample_msg "pause" "") (sample_msg "play_resume" "") _
                  H1 (or_intror H2) H3 H4)).
Defined.

Lemma subscription_matches_stripping_witness :
  0%Z = 0%Z /\
  exists prefix,
    prefix = dict_get (∅ : gmap string pystr) "topic_prefix"
               (py "shairport-sync") /\
    on_connect ∅ 0 = [Subscribe (prefix ++ py "/#")] /\
    forall msg rest,
      msg.(topic) = prefix ++ py "/" ++ rest -> relative_of ∅ msg = rest.
Proof.
  split; [reflexivity|].
  exact (proj1 (subscription_matches_stripping ∅ 0) eq_refl).
Defined.

Lemma get_metadata_raises_iff_witness :
  (AttributeError <> RequestException /\
   (always (GetReturns 200 (JsonReturns (OList []))) (metadata_url_of ∅)
    = GetRaises AttributeError \/
    always (GetReturns 200 (JsonReturns (OList []))) (metadata_url_of ∅)
    = GetReturns 200 (JsonRaises AttributeError) \/
    (AttributeError = AttributeError /\
     exists data,
       always (GetReturns 200 (JsonReturns (OList []))) (metadata_url_of ∅)
       = GetReturns 200 (JsonReturns data) /\
       forall d, data <> ODict d))) /\
  _get_metadata (always (GetReturns 200 (JsonReturns (OList [])))) sample_str ∅
  = Raises AttributeError.
Proof.
  assert (H : AttributeError <> RequestException /\
   (always (GetReturns 200 (JsonReturns (OList []))) (metadata_url_of ∅)
    = GetRaises AttributeError \/
    always (GetReturns 200 (JsonReturns (OList []))) (metadata_url_of ∅)
    = GetReturns 200 (JsonRaises AttributeError) \/
    (AttributeError = AttributeError /\
     exists data,
       always (GetReturns 200 (JsonReturns (OList []))) (metadata_url_of ∅)
       = GetReturns 200 (JsonReturns data) /\
       forall d, data <> ODict d))).
  { split; [discriminate|]. right. right. split; [reflexivity|].
    exists (OList []). split; [reflexivity | discriminate]. }
  split; [exact H|].
  exact (proj2 (get_metadata_raises_iff
                  (always (GetReturns 200 (JsonReturns (OList []))))
                  sample_str ∅ AttributeError) H).
Defined.

Lemma get_metadata_falls_back_witness :
  always (GetRaises RequestException)
    (metadata_url_of {[ "default_title" := OStr (py "Idle") ]})
  = GetRaises RequestException /\
  exists md,
    _get_metadata (always (GetRaises RequestException)) sample_str
      {[ "default_title" := OStr (py "Idle") ]} = Returns md /\
    md !! "title" = Some (OStr (py "Idle")) /\
    md !! "artist" = Some (OStr (py "")) /\
    md !! "is_playing" = Some (OBool false).
Proof.
  split; [reflexivity|].
  destruct (get_metadata_falls_back (always (GetRaises RequestException))
              sample_str {[ "default_title" := OStr (py "Idle") ]}
              (or_introl eq_refl))
    as (md & H & Ht & Ha & _ & _ & Hp & _).
  exists md. repeat split; assumption.
Defined.

Lemma response_fields_win_witness :
  always (GetReturns 200 (JsonReturns (ODict {[ "title" := OStr (py "") ]})))
    (metadata_url_of ∅)
  = GetReturns 200 (JsonReturns (ODict {[ "title" := OStr (py "") ]})) /\
  In "title" ["title"; "artist"; "album"; "is_playing"] /\
  exists md,
    _get_metadata
      (always (GetReturns 200
                 (JsonReturns (ODict {[ "title" := OStr (py "") ]}))))
      sample_str ∅ = Returns md /\
    md !! "title" = Some (OStr (py "")).
Proof.
  split; [reflexivity|]. split; [simpl; tauto|].
  destruct (response_fields_win
              (always (GetReturns 200
                         (JsonReturns (ODict {[ "title" := OStr (py "") ]}))))
              sample_str ∅ {[ "title" := OStr (py "") ]} "title" eq_refl
              (or_introl eq_refl))
    as (md & H & Hv & _).
  exists md. split; [exact H|]. apply Hv. reflexivity.
Defined.

Lemma artwork_precedence_witness :
  always (GetReturns 200 (JsonReturns (ODict
            {[ "artwork_base64" := OStr (py "SlBFRw==");
               "artwork_url" := OStr (py "http://example/cover.png") ]})))
    (metadata_url_of ∅)
  = GetReturns 200 (JsonReturns (ODict
      {[ "artwork_base64" := OStr (py "SlBFRw==");
         "artwork_url" := OStr (py "http://example/cover.png") ]})) /\
  exists md,
    _get_metadata
      (always (GetReturns 200 (JsonReturns (ODict
         {[ "artwork_base64" := OStr (py "SlBFRw==");
            "artwork_url" := OStr (py "http://example/cover.png") ]}))))
      sample_str ∅ = Returns md /\
    md !! "artwork_data" = Some (OStr (py "data:image/jpeg;base64,SlBFRw==")).
Proof.
  split; [reflexivity|].
  destruct (artwork_precedence
              (always (GetReturns 200 (JsonReturns (ODict
                 {[ "artwork_base64" := OStr (py "SlBFRw==");
                    "artwork_url" := OStr (py "http://example/cover.png") ]}))))
              sample_str ∅ _ eq_refl)
    as (md & H & Hb & _).
  exists md. split; [exact H|].
  exact (Hb _ _ eq_refl).
Defined.

Lemma display_follows_server_witness :
  reachable unit sample_float tt ∅
    [sample_msg "title" "Song A"; sample_msg "play_end" ""]
    (Config stopped_before_clearing
       [("title", VStr (py "")); ("artist", VStr (py ""));
        ("album", VStr (py "")); ("artwork_base64", VNone)]
       []) /\
  exists md,
    _get_metadata (always (received (get_metadata stopped_before_clearing)))
      sample_str {[ "default_title" := OStr (py "Idle") ]} = Returns md /\
    md !! "title" = Some (OStr (py "Song A")) /\
    md !! "is_playing" = Some (OBool false).
Proof.
  split; [exact stale_read_reachable|].
  destruct (display_follows_server unit sample_float tt ∅ _ _
              (always (received (get_metadata stopped_before_clearing)))
              sample_str {[ "default_title" := OStr (py "Idle") ]}
              stale_read_reachable eq_refl)
    as (t & a & al & b & Ht & _ & _ & Hb & H).
  eexists. split; [exact H|].
  vm_compute in Ht. vm_compute in Hb.
  injection Ht as <-. injection Hb as <-. split; reflexivity.
Defined.

Lemma main_needs_integer_env_ports_witness :
  ({[ "MQTT_PORT" := py "abc" ]} : gmap string pystr) !! "MQTT_PORT"
  = Some (py "abc") /\
  sample_int (py "abc") = None /\
  main sample_int {[ "MQTT_PORT" := py "abc" ]} sample_cli = StartupValueError.
Proof.
  split; [reflexivity|]. split; [reflexivity|].
  exact (main_needs_integer_env_ports sample_int {[ "MQTT_PORT" := py "abc" ]}
           sample_cli "MQTT_PORT" (py "abc") (or_introl eq_refl)
           eq_refl eq_refl).
Defined.

Lemma configured_prefix_used_everywhere_witness :
  exists args,
    main sample_int {[ "TOPIC_PREFIX" := py "attic" ]} sample_cli
    = Started args /\
    args.(args_topic_prefix) = py "kitchen" /\
    args.(args_mqtt_port) = 1884%Z /\
    on_connect
      (run_mqtt_client args.(args_mqtt_host) args.(args_mqtt_port)
         args.(args_topic_prefix) args.(args_mqtt_user) args.(args_mqtt_pass)
         false).1 0
    = [Subscribe (py "kitchen/#")].
Proof.
  assert (H : main sample_int {[ "TOPIC_PREFIX" := py "attic" ]} sample_cli
              = Started
                  {| args_mqtt_host := py "localhost";
                     args_mqtt_port := 1884;
                     args_mqtt_user := None;
                     args_mqtt_pass := None;
                     args_topic_prefix := py "kitchen";
                     args_http_host := py "0.0.0.0";
                     args_http_port := 5000;
                     args_debug := false |}) by reflexivity.
  eexists. split; [exact H|].
  destruct (configured_prefix_used_everywhere sample_int
              {[ "TOPIC_PREFIX" := py "attic" ]} sample_cli _ false H)
    as (Hp & Hs & _).
  split; [exact Hp|]. split; [reflexivity | exact Hs].
Defined.

Lemma credentials_need_both_witness :
  given (Some (py "inky")) && given (Some (py "")) = false /\
  ~ In (UsernamePwSet (py "inky") (py ""))
      (run_mqtt_client (py "localhost") 1883 (py "shairport-sync")
         (Some (py "inky")) (Some (py "")) false).2 /\
  In LoopForever
    (run_mqtt_client (py "localhost") 1883 (py "shairport-sync")
       (Some (py "inky")) (Some (py "")) false).2.
Proof.
  split; [reflexivity|].
  destruct (credentials_need_both (py "localhost") 1883 (py "shairport-sync")
              (Some (py "inky")) (Some (py "")) false)
    as (Hc & _ & _ & Hl).
  split.
  - intros Hin. apply Hc in Hin as (_ & _ & _ & Hp). apply Hp. reflexivity.
  - apply Hl. reflexivity.
Defined.
